(** * Structure checks on AGENTS.md

    A shallow embedding of the two scripts of
    [skills/ember-best-practices]:

    - [final_verify.py], the structural census (regular-expression counts,
      literal-substring presence checks and a fixed closing summary);
    - [verify_sections.py], the catalog membership check (one literal
      substring test per expected rule title).

    A Python [str] is a sequence of Unicode code points; it is modelled as
    a list of [N].  The part of the [re] module that the scripts use
    (literals, [\d], [.], [^], [$], the lazy [+?], the flags [MULTILINE]
    and [DOTALL], and [findall]) is modelled by a small backtracking
    matcher.  Printing is explicit state passing over the list of printed
    lines. *)

From Stdlib Require Import String Ascii Decimal DecimalNat.
From Stdlib Require Import List NArith Bool Arith Lia.
Import ListNotations.

(** ** The Python runtime the scripts rely on *)

Module Py.

Definition char := N.
Definition str := list char.

(** An ASCII literal of the source, as code points. *)
Definition lit (s : string) : str :=
  map N_of_ascii (list_ascii_of_string s).
Arguments lit s%_string.

(** ['\n'] *)
Definition NL : char := 10%N.

(** [s.startswith(p)] *)
Fixpoint startswith (p s : str) : bool :=
  match p, s with
  | [], _ => true
  | _ :: _, [] => false
  | a :: p', b :: s' => N.eqb a b && startswith p' s'
  end.

(** [needle in hay] on strings: literal substring containment. *)
Fixpoint contains (needle hay : str) : bool :=
  startswith needle hay ||
  match hay with
  | [] => false
  | _ :: hay' => contains needle hay'
  end.

(** [s.count(c)] for a one-character argument. *)
Definition count (c : char) (s : str) : nat :=
  length (filter (N.eqb c) s).

(** [str.isspace] on one code point (Unicode 14, CPython 3.11). *)
Definition isspace (c : char) : bool :=
  ((9 <=? c) && (c <=? 13) || (28 <=? c) && (c <=? 32)
   || (c =? 0x85) || (c =? 0xa0) || (c =? 0x1680)
   || (0x2000 <=? c) && (c <=? 0x200a)
   || (c =? 0x2028) || (c =? 0x2029) || (c =? 0x202f)
   || (c =? 0x205f) || (c =? 0x3000))%N.

Fixpoint lstrip (s : str) : str :=
  match s with
  | c :: s' => if isspace c then lstrip s' else s
  | [] => []
  end.

(** [s.rstrip()] *)
Definition rstrip (s : str) : str := rev (lstrip (rev s)).

(** [s.endswith(p)] *)
Definition endswith (p s : str) : bool := startswith (rev p) (rev s).

(** [s[-n:]] for a positive [n]: the last [n] code points, or all of [s]
    when it is shorter. *)
Definition last_slice (n : nat) (s : str) : str :=
  skipn (length s - n) s.

(** [c * n] for a one-character string [c]. *)
Definition times (c : char) (n : nat) : str := repeat c n.

(** [s.upper()].  The scripts only apply it to the ASCII keys of the
    catalog, where it maps [a-z] to [A-Z] and keeps the rest. *)
Definition upper_char (c : char) : char :=
  if ((97 <=? c) && (c <=? 122))%N then (c - 32)%N else c.
Definition upper (s : str) : str := map upper_char s.

(** Decimal rendering of a non-negative [int] in an f-string. *)
Fixpoint uint_digits (u : Decimal.uint) : str :=
  match u with
  | Nil => []
  | D0 u => 48%N :: uint_digits u
  | D1 u => 49%N :: uint_digits u
  | D2 u => 50%N :: uint_digits u
  | D3 u => 51%N :: uint_digits u
  | D4 u => 52%N :: uint_digits u
  | D5 u => 53%N :: uint_digits u
  | D6 u => 54%N :: uint_digits u
  | D7 u => 55%N :: uint_digits u
  | D8 u => 56%N :: uint_digits u
  | D9 u => 57%N :: uint_digits u
  end.
Definition str_of_nat (n : nat) : str := uint_digits (Nat.to_uint n).

(** [print(line)]: standard output is the list of the arguments printed
    so far, one per call; the text written is [render]. *)
Definition print (line : str) (out : list str) : list str :=
  out ++ [line].

Definition render (out : list str) : str :=
  concat (map (fun line => line ++ [NL]) out).

(** The zero of every run of ten decimal digits in the Unicode database
    (general category Nd, Unicode 14, CPython 3.11). *)
Definition decimal_zeros : list char :=
  [0x30; 0x660; 0x6f0; 0x7c0; 0x966; 0x9e6; 0xa66; 0xae6; 0xb66; 0xbe6;
   0xc66; 0xce6; 0xd66; 0xde6; 0xe50; 0xed0; 0xf20; 0x1040; 0x1090;
   0x17e0; 0x1810; 0x1946; 0x19d0; 0x1a80; 0x1a90; 0x1b50; 0x1bb0;
   0x1c40; 0x1c50; 0xa620; 0xa8d0; 0xa900; 0xa9d0; 0xa9f0; 0xaa50;
   0xabf0; 0xff10; 0x104a0; 0x10d30; 0x11066; 0x110f0; 0x11136; 0x111d0;
   0x112f0; 0x11450; 0x114d0; 0x11650; 0x116c0; 0x11730; 0x118e0;
   0x11950; 0x11c50; 0x11d50; 0x11da0; 0x16a60; 0x16ac0; 0x16b50;
   0x1d7ce; 0x1d7d8; 0x1d7e2; 0x1d7ec; 0x1d7f6; 0x1e140; 0x1e2f0;
   0x1e950; 0x1fbf0]%N.

(** The characters [\d] matches in a [str] pattern. *)
Definition isdecimal (c : char) : bool :=
  existsb (fun z => (z <=? c) && (c <? z + 10))%N decimal_zeros.

End Py.

Import Py.

(** ** The fragment of [re] used by the census *)

Module Re.

Record flags := { MULTILINE : bool; DOTALL : bool }.

(** One-character matchers: a literal, [\d], and [.]. *)
Inductive cls :=
| Chr (c : char)
| Digit
| Dot.

Definition cls_ok (fl : flags) (k : cls) (a : char) : bool :=
  match k with
  | Chr c => N.eqb a c
  | Digit => isdecimal a
  | Dot => DOTALL fl || negb (N.eqb a NL)
  end.

(** A pattern is a sequence of items: one character of a class, the lazy
    repetition [k+?] of a class, and the anchors [^] and [$]. *)
Inductive item :=
| One (k : cls)
| LazyPlus (k : cls)
| Bol
| Eol.

Definition pattern := list item.

(** The items of a literal piece of a pattern. *)
Definition lits (s : string) : pattern :=
  map (fun c => One (Chr c)) (lit s).
Arguments lits s%_string.

(** [^]: at the start of the text, and with [MULTILINE] also right after
    a newline.  [prev] is the character before the current position. *)
Definition at_bol (fl : flags) (prev : option char) : bool :=
  match prev with
  | None => true
  | Some c => MULTILINE fl && N.eqb c NL
  end.

(** [$]: at the end of the text and before a newline that ends it, and
    with [MULTILINE] before every newline.  [s] is the text from the
    current position on. *)
Definition at_eol (fl : flags) (s : str) : bool :=
  match s with
  | [] => true
  | c :: s' =>
      N.eqb c NL && (MULTILINE fl || match s' with [] => true | _ => false end)
  end.

(** The match that starts at the current position: the number of
    characters of the first match in backtracking order, if any.  The
    lazy repetition takes one character and then prefers to stop. *)
Fixpoint match_here (fl : flags) (p : pattern) (prev : option char)
    (s : str) {struct p} : option nat :=
  match p with
  | [] => Some 0
  | Bol :: p' => if at_bol fl prev then match_here fl p' prev s else None
  | Eol :: p' => if at_eol fl s then match_here fl p' prev s else None
  | One k :: p' =>
      match s with
      | a :: s' =>
          if cls_ok fl k a
          then option_map S (match_here fl p' (Some a) s')
          else None
      | [] => None
      end
  | LazyPlus k :: p' =>
      (fix more (s : str) : option nat :=
         match s with
         | a :: s' =>
             if cls_ok fl k a
             then match match_here fl p' (Some a) s' with
                  | Some n => Some (S n)
                  | None => option_map S (more s')
                  end
             else None
         | [] => None
         end) s
  end.

(** The scan of [findall]: matches are searched from left to right and do
    not overlap; [skip] counts the characters of the last match still to
    pass.  The patterns of the census match at least one character, so
    the treatment of empty matches is never exercised. *)
Fixpoint scan (fl : flags) (p : pattern) (prev : option char) (skip : nat)
    (s : str) {struct s} : list str :=
  match skip with
  | S k =>
      match s with
      | [] => []
      | c :: s' => scan fl p (Some c) k s'
      end
  | O =>
      match match_here fl p prev s with
      | Some n =>
          firstn n s ::
          match s with
          | [] => []
          | c :: s' => scan fl p (Some c) (pred n) s'
          end
      | None =>
          match s with
          | [] => []
          | c :: s' => scan fl p (Some c) 0 s'
          end
      end
  end.

(** [re.findall(p, s, flags)] for a pattern without groups: the list of
    the matched pieces. *)
Definition findall (fl : flags) (p : pattern) (s : str) : list str :=
  scan fl p None 0 s.

End Re.

Import Re.

(** ** Running a script: the file it reads and what it prints *)

Module Proc.

(** The part of the world a script touches: the files it may open, by
    path, with their decoded text, and the lines printed so far. *)
Record world := { fs : string -> option str; stdout : list str }.

Inductive outcome :=
| Exited (w : world)
| FileNotFoundError.

(** [with open(path, "r") as f: content = f.read()], then the body. *)
Definition with_content (path : string) (body : str -> list str -> list str)
    (w : world) : outcome :=
  match fs w path with
  | Some content =>
      Exited {| fs := fs w; stdout := body content (stdout w) |}
  | None => FileNotFoundError
  end.

End Proc.

(** ** [final_verify.py]: the structural census *)

Module FinalVerify.

Definition M : flags := {| MULTILINE := true; DOTALL := false |}.
Definition M_S : flags := {| MULTILINE := true; DOTALL := true |}.

(** [r'^## \d\. '] *)
Definition sections_re : pattern :=
  Bol :: lits "## " ++ [One Digit] ++ lits ". ".

(** [r'^## '] *)
Definition all_headers_re : pattern := Bol :: lits "## ".

(** [r'## \d\. .+?\n\n\*\*Impact:\*\*'] *)
Definition section_pattern : pattern :=
  lits "## " ++ [One Digit] ++ lits ". " ++
  [LazyPlus Dot; One (Chr NL); One (Chr NL)] ++ lits "**Impact:**".

(** [r'^---$'] *)
Definition horizontal_rules_re : pattern := Bol :: lits "---" ++ [Eol].

Definition sections (content : str) : list str :=
  findall M sections_re content.

Definition all_headers (content : str) : list str :=
  findall M all_headers_re content.

Definition sections_with_metadata (content : str) : nat :=
  length (findall M_S section_pattern content).

Definition horizontal_rules (content : str) : nat :=
  length (findall M horizontal_rules_re content).

Definition lines (content : str) : nat := count NL content.

(** The check mark and the two symbols of the closing lines. *)
Definition tick : str := [0x2713; 32]%N.
Definition done_mark : char := 0x2705%N.
Definition chart_mark : char := 0x1f4ca%N.

Definition sections_line (content : str) : str :=
  tick ++ lit "Number of main sections: " ++
  str_of_nat (length (sections content)).
Definition all_headers_line (content : str) : str :=
  tick ++ lit "Total headers (##): " ++
  str_of_nat (length (all_headers content)).
Definition toc_line : str := tick ++ lit "Table of Contents present".
Definition metadata_line : str :=
  tick ++ lit "Header metadata present (Version, Organization, Date)".
Definition abstract_line : str := tick ++ lit "Abstract present".
Definition sections_with_metadata_line (content : str) : str :=
  tick ++ lit "Sections with metadata: " ++
  str_of_nat (sections_with_metadata content) ++ lit "/7".
Definition horizontal_rules_line (content : str) : str :=
  tick ++ lit "Horizontal rule separators: " ++
  str_of_nat (horizontal_rules content).
Definition lines_line (content : str) : str :=
  tick ++ lit "Total lines: " ++ str_of_nat (lines content).
Definition ending_line : str := tick ++ lit "File ends with proper content".
Definition banner : str :=
  NL :: done_mark :: lit " AGENTS.md file is complete and well-formed!".
Definition summary_title : str := NL :: chart_mark :: lit " Summary:".
Definition summary_sections : str := lit "   - 7 main sections".
Definition summary_rules : str := lit "   - 23 rules total".
Definition summary_lines (content : str) : str :=
  lit "   - " ++ str_of_nat (lines content) ++ lit " lines".
Definition summary_format : str :=
  lit "   - All rules properly formatted and organized".

(** The body of the script, after the file has been read. *)
Definition final_verify (content : str) (out : list str) : list str :=
  let out := print (sections_line content) out in
  let out := print (all_headers_line content) out in
  let out :=
    if contains (lit "## Table of Contents") content
    then print toc_line out else out in
  let out :=
    if contains (lit "**Version:**") content
       && contains (lit "**Organization:**") content
       && contains (lit "**Date:**") content
    then print metadata_line out else out in
  let out :=
    if contains (lit "## Abstract") content
    then print abstract_line out else out in
  let out := print (sections_with_metadata_line content) out in
  let out := print (horizontal_rules_line content) out in
  let out := print (lines_line content) out in
  let out :=
    if endswith (lit "]") (rstrip content)
       || contains (lit "Reference:") (last_slice 200 content)
    then print ending_line out else out in
  let out := print banner out in
  let out := print summary_title out in
  let out := print summary_sections out in
  let out := print summary_rules out in
  let out := print (summary_lines content) out in
  print summary_format out.

Definition main : Proc.world -> Proc.outcome :=
  Proc.with_content "AGENTS.md" final_verify.

End FinalVerify.

(** ** [verify_sections.py]: the catalog membership check *)

Module VerifySections.

(** The catalog, a dict literal: its items in insertion order. *)
Definition sections : list (str * list str) :=
  [ (lit "route",
     [lit "Use Route-Based Code Splitting";
      lit "Use Loading Substates for Better UX";
      lit "Parallel Data Loading in Model Hooks"]);
    (lit "bundle",
     [lit "Avoid Importing Entire Addon Namespaces";
      lit "Use Embroider Static Mode";
      lit "Lazy Load Heavy Dependencies"]);
    (lit "component",
     [lit "Use @cached for Expensive Getters";
      lit "Avoid Unnecessary Tracking";
      lit "Use Tracked Toolbox for Complex State";
      lit "Use Glimmer Components Over Classic Components"]);
    (lit "a11y",
     [lit "Use ember-a11y-testing for Automated Checks";
      lit "Form Labels and Error Announcements";
      lit "Keyboard Navigation Support";
      lit "Announce Route Transitions to Screen Readers";
      lit "Semantic HTML and ARIA Attributes"]);
    (lit "service",
     [lit "Cache API Responses in Services";
      lit "Optimize Ember Data Queries";
      lit "Use Services for Shared State"]);
    (lit "template",
     [lit "Avoid Heavy Computation in Templates";
      lit "Use {{#each}} with @key for Lists";
      lit "Use {{#let}} to Avoid Recomputation"]);
    (lit "advanced",
     [lit "Use Helpers for Template Logic";
      lit "Use Modifiers for DOM Side Effects"]) ].

(** The variables the loops update. *)
Record state := { out : list str; total_rules : nat }.

Definition found_line (rule : str) : str :=
  [32; 32; 0x2713; 32]%N ++ rule.
Definition missing_line (rule : str) : str :=
  [32; 32; 0x2717; 32]%N ++ lit "MISSING: " ++ rule.
Definition category_line (prefix : str) (rules : list str) : str :=
  NL :: upper prefix ++ lit " (" ++ str_of_nat (length rules) ++
  lit " rules):".
Definition total_line (n : nat) : str :=
  lit "Total rules found: " ++ str_of_nat n ++ lit "/23".

(** The body of the inner loop. *)
Definition check_rule (content : str) (st : state) (rule : str) : state :=
  if contains (lit "## " ++ rule) content
  then {| out := print (found_line rule) (out st);
          total_rules := S (total_rules st) |}
  else {| out := print (missing_line rule) (out st);
          total_rules := total_rules st |}.

(** The body of the outer loop. *)
Definition check_category (content : str) (st : state)
    (entry : str * list str) : state :=
  let '(prefix, rules) := entry in
  let st := {| out := print (category_line prefix rules) (out st);
               total_rules := total_rules st |} in
  fold_left (check_rule content) rules st.

(** The body of the script, after the file has been read. *)
Definition run (content : str) (out0 : list str) : state :=
  let o := print (lit "Verifying all rules are present in AGENTS.md:") out0 in
  let o := print (times 61%N 60) o in
  let st := fold_left (check_category content) sections
              {| out := o; total_rules := 0 |} in
  let o := print (NL :: times 61%N 60) (out st) in
  {| out := print (total_line (total_rules st)) o;
     total_rules := total_rules st |}.

Definition verify_sections (content : str) (out0 : list str) : list str :=
  out (run content out0).

Definition main : Proc.world -> Proc.outcome :=
  Proc.with_content "AGENTS.md" verify_sections.

End VerifySections.

(** ** The document as the claims describe it: lines, headings, regions *)

Module Doc.

(** The lines of a text: the pieces between newlines (a text that ends
    with a newline has an empty last line). *)
Fixpoint split_lines (s : str) : list str :=
  match s with
  | [] => [[]]
  | c :: s' =>
      if N.eqb c NL then [] :: split_lines s'
      else match split_lines s' with
           | l :: ls => (c :: l) :: ls
           | [] => [[c]]
           end
  end.

(** A numbered heading token: ["## "], one decimal digit, ["."], a space. *)
Definition heading_token (s : str) : bool :=
  match s with
  | h1 :: h2 :: b1 :: d :: dot :: b2 :: _ =>
      N.eqb h1 35 && N.eqb h2 35 && N.eqb b1 32 && isdecimal d
      && N.eqb dot 46 && N.eqb b2 32
  | _ => false
  end.

(** A line that starts as a numbered second-level header. *)
Definition is_numbered_header (line : str) : bool := heading_token line.

(** A line that starts as a second-level header. *)
Definition is_header (line : str) : bool := startswith (lit "## ") line.

(** A line that is exactly the separator token. *)
Definition is_rule (line : str) : bool :=
  match line with
  | [a; b; c] => N.eqb a 45 && N.eqb b 45 && N.eqb c 45
  | _ => false
  end.

Definition count_lines (P : str -> bool) (s : str) : nat :=
  length (filter P (split_lines s)).

(** The adjacency reading of the metadata count: numbered header lines
    followed by exactly one blank line and then a line opening with
    ["**Impact:**"]. *)
Fixpoint adjacent_metadata (ls : list str) : nat :=
  match ls with
  | [] => 0
  | h :: rest =>
      match rest with
      | blank :: m :: _ =>
          if is_numbered_header h
             && match blank with [] => true | _ => false end
             && startswith (lit "**Impact:**") m
          then 1 else 0
      | _ => 0
      end + adjacent_metadata rest
  end.

Definition sections_adjacent_to_metadata (s : str) : nat :=
  adjacent_metadata (split_lines s).

(** A blank line and the opening marker of the metadata block. *)
Definition impact_marker : str := NL :: NL :: lit "**Impact:**".

(** The offset of the first occurrence of [needle] in [hay]. *)
Fixpoint find (needle hay : str) : option nat :=
  if startswith needle hay then Some 0
  else match hay with
       | [] => None
       | _ :: hay' => option_map S (find needle hay')
       end.

(** The region reading of the metadata count.  Going from left to right,
    a region opens at a numbered heading token, wherever it stands in
    its line, provided a marker starts at least one character after the
    token, and closes at the end of the first such marker; the search
    resumes after the region.  [skip] counts the characters of the open
    region still to pass. *)
Fixpoint heading_to_impact (skip : nat) (s : str) : nat :=
  match s with
  | [] => 0
  | _ :: s' =>
      match skip with
      | S k => heading_to_impact k s'
      | O =>
          if heading_token s
          then match find impact_marker (skipn 7 s) with
               | Some d =>
                   S (heading_to_impact (6 + d + length impact_marker) s')
               | None => heading_to_impact 0 s'
               end
          else heading_to_impact 0 s'
      end
  end.

Definition regions_heading_to_impact (s : str) : nat :=
  heading_to_impact 0 s.

(** A text made of lines, each ended by a newline. *)
Definition unlines (ls : list str) : str :=
  concat (map (fun l => l ++ [NL]) ls).

End Doc.

Import Doc.

(** ** Patterns that match inside one line *)

Module LinePattern.

(** An item that never takes a newline and does not look back. *)
Definition line_item (fl : flags) (it : item) : bool :=
  match it with
  | One k => negb (cls_ok fl k NL)
  | Eol => true
  | LazyPlus _ | Bol => false
  end.

Definition line_local (fl : flags) (p : pattern) : bool :=
  forallb (line_item fl) p.

(** A pattern that takes at least one character. *)
Definition consumes (p : pattern) : bool :=
  existsb (fun it => match it with One _ => true | _ => false end) p.

(** The pattern matches at the start of the line. *)
Definition matches_line (fl : flags) (p : pattern) (line : str) : bool :=
  match match_here fl p None line with
  | Some _ => true
  | None => false
  end.

Definition no_newline (line : str) : bool :=
  forallb (fun c => negb (N.eqb c NL)) line.

End LinePattern.

Import LinePattern.

(** ** What a report says *)

Module Report.

(** Some printed line contains [needle]. *)
Definition mentions (needle : str) (out : list str) : bool :=
  existsb (contains needle) out.

(** The rendering of a title as a sub-header. *)
Definition rendered (rule : str) : str := lit "## " ++ rule.

(** The document contains the rendering of the title. *)
Definition has (content : str) (rule : str) : bool :=
  contains (rendered rule) content.

(** Every expected title, in the order of the catalog. *)
Definition all_titles : list str :=
  flat_map snd VerifySections.sections.

(** The start of a line that reports a missing title, and the lines of
    a report that do so. *)
Definition missing_mark : str := [32; 32; 0x2717; 32]%N ++ lit "MISSING: ".
Definition missing_entries (out : list str) : list str :=
  filter (startswith missing_mark) out.

(** The start of a line that reports a title found, and those lines. *)
Definition found_mark : str := [32; 32; 0x2713; 32]%N.
Definition found_entries (out : list str) : list str :=
  filter (startswith found_mark) out.

(** The line the inner loop prints for a title. *)
Definition entry (content : str) (rule : str) : str :=
  if has content rule
  then VerifySections.found_line rule
  else VerifySections.missing_line rule.

(** The lines of one category. *)
Definition category (content : str) (e : str * list str) : list str :=
  VerifySections.category_line (fst e) (snd e)
  :: map (entry content) (snd e).

End Report.

Import Report.

(** ** Documents to run the checks on *)

Module Fixture.

(** One sub-header per expected title, in catalog order. *)
Definition complete_document : str := unlines (map rendered all_titles).

(** The same, with the heading of the title at position [i] replaced. *)
Definition document_with_heading (i : nat) (heading : str) : str :=
  unlines (map rendered (firstn i all_titles)
           ++ [heading]
           ++ map rendered (skipn (S i) all_titles)).

End Fixture.

(** ** A section as the census expects it *)

Module Layout.

(** A numbered heading with its title, a blank line and the opening of
    the metadata block. *)
Definition section_block (d : char) (title : str) : str :=
  lit "## " ++ [d] ++ lit ". " ++ title ++ impact_marker.

(** A heading token starts at one of the first [n] positions of [s]. *)
Fixpoint token_within (n : nat) (s : str) : bool :=
  match n with
  | O => false
  | S n' =>
      heading_token s
      || match s with
         | [] => false
         | _ :: s' => token_within n' s'
         end
  end.

End Layout.

Import Layout.

(** ** The count lines of the census *)

Module Printed.

(** A line of the census that reports a number: the check mark, the
    label and the number in decimal. *)
Definition count_report (label : string) (n : nat) : str :=
  [0x2713; 32]%N ++ lit label ++ str_of_nat n.
Arguments count_report label%_string n.

(** The number of lines of the text that a list of printed strings
    makes on standard output. *)
Definition text_lines (out : list str) : nat := count NL (render out).

End Printed.

Import Printed.

(** * Facts *)

(** ** Lines *)

Lemma split_lines_newline (s : str) :
  split_lines (NL :: s) = [] :: split_lines s.
Proof. reflexivity. Qed.

Lemma split_lines_other (c : char) (s : str) :
  N.eqb c NL = false ->
  split_lines (c :: s) = (c :: hd [] (split_lines s)) :: tl (split_lines s).
Proof.
  intros Hc. simpl. rewrite Hc. destruct (split_lines s); reflexivity.
Qed.

Lemma split_lines_no_newline (s : str) :
  Forall (fun l => no_newline l = true) (split_lines s).
Proof.
  induction s as [|c s IH]; simpl.
  - repeat constructor.
  - destruct (N.eqb c NL) eqn:Hc.
    + constructor; [reflexivity | exact IH].
    + destruct (split_lines s) as [|l ls].
      * constructor; [simpl; rewrite Hc; reflexivity | constructor].
      * inversion IH; subst. constructor; [|assumption].
        simpl. rewrite Hc. simpl. assumption.
Qed.

Lemma filter_length_le {A} (P Q : A -> bool) (l : list A) :
  (forall x, In x l -> P x = true -> Q x = true) ->
  length (filter P l) <= length (filter Q l).
Proof.
  induction l as [|x l IH]; intros H; simpl; [lia|].
  assert (IH' : length (filter P l) <= length (filter Q l)).
  { apply IH. intros y Hy. apply H. now right. }
  destruct (P x) eqn:HP.
  - rewrite (H x (or_introl eq_refl) HP). simpl. lia.
  - destruct (Q x); simpl; lia.
Qed.

(** ** Matching a line-local pattern *)

Section LineLocal.

Variable fl : flags.
Hypothesis multiline : MULTILINE fl = true.

Lemma at_eol_first_line (s : str) :
  at_eol fl s = at_eol fl (hd [] (split_lines s)).
Proof.
  destruct s as [|c s]; [reflexivity|].
  destruct (N.eqb c NL) eqn:Hc.
  - apply N.eqb_eq in Hc. subst c. simpl. now rewrite multiline.
  - rewrite (split_lines_other _ _ Hc). simpl. now rewrite Hc.
Qed.

(** A line-local pattern sees only the line it starts in. *)
Lemma match_here_first_line (p : pattern) :
  line_local fl p = true ->
  forall prev prev' s,
    match_here fl p prev s = match_here fl p prev' (hd [] (split_lines s)).
Proof.
  induction p as [|it p IH]; intros Hp prev prev' s; [reflexivity|].
  simpl in Hp. apply andb_true_iff in Hp. destruct Hp as [Hit Hp].
  destruct it as [k|k| |]; try discriminate; simpl.
  - destruct s as [|c s]; [reflexivity|].
    destruct (N.eqb c NL) eqn:Hc.
    + apply N.eqb_eq in Hc. subst c. simpl.
      apply negb_true_iff in Hit. now rewrite Hit.
    + rewrite (split_lines_other _ _ Hc). simpl.
      now rewrite (IH Hp (Some c) (Some c) s).
  - rewrite <- at_eol_first_line.
    now rewrite (IH Hp prev prev' s).
Qed.

Lemma match_here_length (p : pattern) :
  line_local fl p = true ->
  forall prev s n, match_here fl p prev s = Some n -> n <= length s.
Proof.
  induction p as [|it p IH]; intros Hp prev s n H.
  - simpl in H. injection H as <-. lia.
  - simpl in Hp. apply andb_true_iff in Hp. destruct Hp as [Hit Hp].
    destruct it as [k|k| |]; try discriminate; simpl in H.
    + destruct s as [|c s]; [discriminate|].
      destruct (cls_ok fl k c); [|discriminate].
      destruct (match_here fl p (Some c) s) as [m|] eqn:Hm; [|discriminate].
      injection H as <-. apply (IH Hp) in Hm. simpl. lia.
    + destruct (at_eol fl s); [|discriminate]. eauto.
Qed.

Lemma match_here_positive (p : pattern) :
  line_local fl p = true -> consumes p = true ->
  forall prev s n, match_here fl p prev s = Some n -> 1 <= n.
Proof.
  induction p as [|it p IH]; intros Hp Hc prev s n H; [discriminate|].
  simpl in Hp. apply andb_true_iff in Hp. destruct Hp as [Hit Hp].
  destruct it as [k|k| |]; try discriminate; simpl in H.
  - destruct s as [|c s]; [discriminate|].
    destruct (cls_ok fl k c); [|discriminate].
    destruct (match_here fl p (Some c) s); [|discriminate].
    injection H as <-. lia.
  - destruct (at_eol fl s); [|discriminate]. simpl in Hc. eauto.
Qed.

Variable p : pattern.
Hypothesis local : line_local fl p = true.
Hypothesis nonempty : consumes p = true.

Let P := matches_line fl p.

(** The scan of [^p] counts the lines that [p] matches: at the start of
    a line all lines from here on, inside a line the lines after it. *)
Lemma scan_lines (s : str) :
  (forall prev, at_bol fl prev = true ->
     length (scan fl (Bol :: p) prev 0 s)
     = length (filter P (split_lines s)))
  /\ (forall prev k, at_bol fl prev = false ->
        k <= length (hd [] (split_lines s)) ->
        length (scan fl (Bol :: p) prev k s)
        = length (filter P (tl (split_lines s)))).
Proof.
  induction s as [|c s [IHbol IHmid]].
  - split.
    + intros prev Hb. simpl. rewrite Hb.
      unfold P, matches_line.
      rewrite (match_here_first_line p local prev None []). simpl.
      destruct (match_here fl p None []) as [n|] eqn:Hn; [|reflexivity].
      pose proof (match_here_length p local _ _ _ Hn).
      pose proof (match_here_positive p local nonempty _ _ _ Hn).
      simpl in *. lia.
    + intros prev k Hb _. destruct k; simpl; [rewrite Hb|]; reflexivity.
  - split.
    + intros prev Hb.
      cbn [scan match_here]. rewrite Hb.
      rewrite (match_here_first_line p local prev None (c :: s)).
      destruct (N.eqb c NL) eqn:Hc.
      * apply N.eqb_eq in Hc. subst c. rewrite split_lines_newline.
        cbn [hd filter]. unfold P at 1, matches_line.
        destruct (match_here fl p None []) as [n|] eqn:Hn.
        { pose proof (match_here_length p local _ _ _ Hn).
          pose proof (match_here_positive p local nonempty _ _ _ Hn).
          simpl in *. lia. }
        apply IHbol. simpl. now rewrite multiline.
      * rewrite (split_lines_other _ _ Hc). cbn [hd filter].
        unfold P at 1, matches_line.
        assert (Hmid : at_bol fl (Some c) = false).
        { simpl. rewrite Hc. apply andb_false_r. }
        destruct (match_here fl p None (c :: hd [] (split_lines s)))
          as [n|] eqn:Hn.
        { pose proof (match_here_length p local _ _ _ Hn).
          pose proof (match_here_positive p local nonempty _ _ _ Hn).
          cbn [length]. f_equal. apply IHmid; [exact Hmid|].
          simpl in *. lia. }
        apply IHmid; [exact Hmid | lia].
    + intros prev k Hb Hk.
      destruct (N.eqb c NL) eqn:Hc.
      * apply N.eqb_eq in Hc. subst c. rewrite split_lines_newline in *.
        cbn [hd tl length] in *.
        assert (k = 0) by lia. subst k.
        cbn [scan match_here]. rewrite Hb.
        apply IHbol. simpl. now rewrite multiline.
      * rewrite (split_lines_other _ _ Hc) in *. cbn [hd tl length] in *.
        assert (Hmid : at_bol fl (Some c) = false).
        { simpl. rewrite Hc. apply andb_false_r. }
        destruct k as [|k].
        { cbn [scan match_here]. rewrite Hb.
          apply IHmid; [exact Hmid | lia]. }
        cbn [scan]. apply IHmid; [exact Hmid | lia].
Qed.

(** [len(re.findall('^p', s, re.MULTILINE))] is the number of lines that
    [p] matches at their start. *)
Lemma findall_lines (s : str) :
  length (findall fl (Bol :: p) s) = length (filter P (split_lines s)).
Proof. apply scan_lines. reflexivity. Qed.

End LineLocal.

(** ** The three anchored patterns of the census *)

Lemma numbered_header_line (l : str) :
  matches_line FinalVerify.M (lits "## " ++ [One Digit] ++ lits ". ") l
  = is_numbered_header l.
Proof.
  unfold matches_line, is_numbered_header, heading_token.
  destruct l as [|a [|b [|c [|d [|e [|f l]]]]]];
    cbn -[isdecimal N.eqb];
    repeat match goal with
      | |- context [N.eqb ?x ?y] => destruct (N.eqb x y); cbn -[isdecimal N.eqb]
      | |- context [isdecimal ?x] => destruct (isdecimal x); cbn -[isdecimal N.eqb]
      end; reflexivity.
Qed.

Lemma header_line (l : str) :
  matches_line FinalVerify.M (lits "## ") l = is_header l.
Proof.
  unfold matches_line, is_header.
  destruct l as [|a [|b [|c l]]];
    cbn -[N.eqb]; rewrite ?(N.eqb_sym 35), ?(N.eqb_sym 32);
    repeat match goal with
      | |- context [N.eqb ?x ?y] => destruct (N.eqb x y); cbn -[N.eqb]
      end; reflexivity.
Qed.

Lemma rule_line (l : str) :
  no_newline l = true ->
  matches_line FinalVerify.M (lits "---" ++ [Eol]) l = is_rule l.
Proof.
  unfold matches_line, is_rule, no_newline.
  destruct l as [|a [|b [|c [|d l]]]]; cbn -[N.eqb]; intros H;
    repeat match goal with
      | |- context [N.eqb ?x 45%N] => destruct (N.eqb x 45%N); cbn -[N.eqb]
      end; try reflexivity.
  cbn -[N.eqb] in H.
  destruct (N.eqb d NL); [|reflexivity].
  rewrite !andb_false_r in H. discriminate.
Qed.

Lemma numbered_header_is_header (l : str) :
  is_numbered_header l = true -> is_header l = true.
Proof.
  unfold is_numbered_header, heading_token, is_header.
  destruct l as [|a [|b [|c [|d [|e [|f l]]]]]]; try discriminate.
  cbn -[isdecimal N.eqb]. intros H.
  repeat (apply andb_true_iff in H; destruct H as [H ?]).
  repeat match goal with
    | E : N.eqb _ _ = true |- _ => apply N.eqb_eq in E; subst
    end.
  reflexivity.
Qed.

Lemma all_headers_by_lines (content : str) :
  length (FinalVerify.all_headers content) = count_lines is_header content.
Proof.
  unfold FinalVerify.all_headers, FinalVerify.all_headers_re, count_lines.
  rewrite findall_lines by reflexivity.
  apply f_equal, filter_ext, header_line.
Qed.

(** A sample document: two numbered headers, one other second-level
    header, a third-level header that has the token inside it, and two
    separator lines, one of them the last line without a newline. *)
Example sample_counts :
  let content :=
    unlines [lit "# Guide"; lit "## Table of Contents"; lit "## 1. Setup";
             lit "---"; lit "### 2. Not a section"; lit "## 2. Usage";
             lit "----"; lit " ---"] ++ lit "---" in
  length (FinalVerify.sections content) = 2
  /\ length (FinalVerify.all_headers content) = 3
  /\ FinalVerify.horizontal_rules content = 2.
Proof. vm_compute. repeat split. Qed.

(** ** The metadata pattern: a heading token, a lazy gap, the marker *)

Lemma match_here_lazy_cons fl k p prev a s :
  match_here fl (LazyPlus k :: p) prev (a :: s)
  = if cls_ok fl k a
    then match match_here fl p (Some a) s with
         | Some n => Some (S n)
         | None => option_map S (match_here fl (LazyPlus k :: p) (Some a) s)
         end
    else None.
Proof. reflexivity. Qed.

(** A literal piece of a pattern is a prefix test. *)
Lemma match_here_literal fl (m : str) prev (s : str) :
  match_here fl (map (fun c => One (Chr c)) m) prev s
  = if startswith m s then Some (length m) else None.
Proof.
  revert prev s. induction m as [|a m IH]; intros prev s; [reflexivity|].
  destruct s as [|b s]; [reflexivity|].
  cbn [map match_here cls_ok startswith length].
  rewrite (N.eqb_sym a b). destruct (N.eqb b a); [|reflexivity].
  rewrite IH. cbn [andb]. destruct (startswith m s); reflexivity.
Qed.

(** With [DOTALL], [.+?] followed by a literal stops at the first
    occurrence of the literal that leaves it at least one character. *)
Lemma match_here_lazy_gap fl (m : str) :
  DOTALL fl = true -> m <> [] ->
  forall prev s,
    match_here fl (LazyPlus Dot :: map (fun c => One (Chr c)) m) prev s
    = match s with
      | [] => None
      | _ :: s' => option_map (fun d => S (d + length m)) (find m s')
      end.
Proof.
  intros Hd Hm prev s. revert prev.
  induction s as [|a s IH]; intros prev; [reflexivity|].
  rewrite match_here_lazy_cons. cbn [cls_ok]. rewrite Hd. cbn [orb].
  rewrite match_here_literal.
  destruct s as [|b s].
  - destruct m; [congruence | reflexivity].
  - cbn [find]. destruct (startswith m (b :: s)); [reflexivity|].
    rewrite IH. destruct (find m s); reflexivity.
Qed.

(** Whatever follows the heading token in a pattern is tried right after
    the token, and only there. *)
Lemma match_here_heading_token fl (rest : pattern) prev (s : str) :
  match_here fl (lits "## " ++ [One Digit] ++ lits ". " ++ rest) prev s
  = if heading_token s
    then option_map (Nat.add 6) (match_here fl rest (Some 32%N) (skipn 6 s))
    else None.
Proof.
  unfold heading_token.
  destruct s as [|a [|b [|c [|d [|e [|f s]]]]]];
    cbn -[isdecimal N.eqb match_here];
    cbn [match_here cls_ok];
    repeat match goal with
      | |- context [N.eqb ?x (N.pos ?y)] =>
          let E := fresh "E" in
          destruct (N.eqb x (N.pos y)) eqn:E; cbn -[isdecimal N.eqb match_here]
      | |- context [isdecimal ?x] =>
          destruct (isdecimal x); cbn -[isdecimal N.eqb match_here]
      end; try reflexivity.
  match goal with E : N.eqb f _ = true |- _ => apply N.eqb_eq in E; subst f end.
  unfold char. destruct (match_here fl rest (Some 32%N) s); reflexivity.
Qed.

Lemma section_pattern_match prev (s : str) :
  match_here FinalVerify.M_S FinalVerify.section_pattern prev s
  = if heading_token s
    then option_map (fun d => 7 + d + length impact_marker)
           (find impact_marker (skipn 7 s))
    else None.
Proof.
  unfold FinalVerify.section_pattern.
  rewrite match_here_heading_token.
  destruct (heading_token s) eqn:Ht; [|reflexivity].
  change ([LazyPlus Dot; One (Chr NL); One (Chr NL)] ++ lits "**Impact:**")
    with (LazyPlus Dot :: map (fun c => One (Chr c)) impact_marker).
  rewrite match_here_lazy_gap by (reflexivity || discriminate).
  destruct s as [|a [|b [|c [|d [|e [|f s]]]]]]; try discriminate.
  cbn [skipn]. destruct s as [|g s]; [reflexivity|].
  destruct (find impact_marker s); reflexivity.
Qed.

(** C1 as stated fails: the heading of this document is followed by a line
    of text, and only then by a blank line and the marker; the census
    counts one section, the adjacency reading none. *)
Lemma sections_with_metadata_not_adjacent :
  let content :=
    unlines [lit "## 1. Setup"; lit "Intro text."; lit "";
             lit "**Impact:** HIGH"] in
  FinalVerify.sections_with_metadata content = 1
  /\ sections_adjacent_to_metadata content = 0
  /\ FinalVerify.sections_with_metadata content
     <> sections_adjacent_to_metadata content
  /\ nth 2 (FinalVerify.final_verify content []) []
     = [0x2713; 32]%N ++ lit "Sections with metadata: 1/7".
Proof. vm_compute. repeat split; discriminate. Qed.

(** The two readings also part the other way: a heading with an empty
    title, directly followed by a blank line and the marker, is adjacent
    to its metadata but opens no region, since the gap must take a
    character before the marker. *)
Example empty_title_not_counted :
  let content := unlines [lit "## 1. "; lit ""; lit "**Impact:** HIGH"] in
  FinalVerify.sections_with_metadata content = 0
  /\ sections_adjacent_to_metadata content = 1.
Proof. vm_compute. split; reflexivity. Qed.

(** On a document whose two sections both carry their block right under
    the heading, the two readings agree. *)
Example adjacent_sections_counted :
  let content :=
    unlines [lit "## 1. Setup"; lit ""; lit "**Impact:** HIGH"; lit "---";
             lit "## 2. Usage"; lit ""; lit "**Impact:** LOW"] in
  FinalVerify.sections_with_metadata content = 2
  /\ sections_adjacent_to_metadata content = 2.
Proof. vm_compute. split; reflexivity. Qed.

(** ** The lines of the census *)

Lemma final_verify_lines (content : str) (out : list str) :
  FinalVerify.final_verify content out
  = out
    ++ [FinalVerify.sections_line content;
        FinalVerify.all_headers_line content]
    ++ (if contains (lit "## Table of Contents") content
        then [FinalVerify.toc_line] else [])
    ++ (if contains (lit "**Version:**") content
           && contains (lit "**Organization:**") content
           && contains (lit "**Date:**") content
        then [FinalVerify.metadata_line] else [])
    ++ (if contains (lit "## Abstract") content
        then [FinalVerify.abstract_line] else [])
    ++ [FinalVerify.sections_with_metadata_line content;
        FinalVerify.horizontal_rules_line content;
        FinalVerify.lines_line content]
    ++ (if endswith (lit "]") (rstrip content)
           || contains (lit "Reference:") (last_slice 200 content)
        then [FinalVerify.ending_line] else [])
    ++ [FinalVerify.banner; FinalVerify.summary_title;
        FinalVerify.summary_sections; FinalVerify.summary_rules;
        FinalVerify.summary_lines content; FinalVerify.summary_format].
Proof.
  unfold FinalVerify.final_verify, print.
  destruct (contains (lit "## Table of Contents") content);
    destruct (contains (lit "**Version:**") content
              && contains (lit "**Organization:**") content
              && contains (lit "**Date:**") content);
    destruct (contains (lit "## Abstract") content);
    destruct (endswith (lit "]") (rstrip content)
              || contains (lit "Reference:") (last_slice 200 content));
    cbv zeta; rewrite <- ?app_assoc; reflexivity.
Qed.

(** C10.  Whatever the document, the census ends with the completion
    banner and the summary, whose section and rule figures are the
    literals 7 and 23. *)
Theorem census_ends_with_fixed_summary (content : str) (out : list str) :
  exists before,
    FinalVerify.final_verify content out
    = before
      ++ [NL :: FinalVerify.done_mark
             :: lit " AGENTS.md file is complete and well-formed!";
          NL :: FinalVerify.chart_mark :: lit " Summary:";
          lit "   - 7 main sections";
          lit "   - 23 rules total";
          lit "   - " ++ str_of_nat (count NL content) ++ lit " lines";
          lit "   - All rules properly formatted and organized"].
Proof.
  rewrite final_verify_lines. rewrite !app_assoc. eexists. reflexivity.
Qed.

(** ** Which lines mention what *)

Lemma startswith_chars (needle hay : str) (x : char) :
  startswith needle hay = true ->
  existsb (N.eqb x) needle = true -> existsb (N.eqb x) hay = true.
Proof.
  revert hay. induction needle as [|a needle IH]; intros hay Hs Hx;
    [discriminate|].
  destruct hay as [|b hay]; [discriminate|].
  simpl in Hs. apply andb_true_iff in Hs. destruct Hs as [Hab Hs].
  apply N.eqb_eq in Hab. subst b.
  simpl in *. destruct (N.eqb x a); [reflexivity|]. now apply IH.
Qed.

(** A text that lacks a character of [needle] does not contain [needle]. *)
Lemma contains_absent (x : char) (needle hay : str) :
  existsb (N.eqb x) needle = true ->
  existsb (N.eqb x) hay = false ->
  contains needle hay = false.
Proof.
  intros Hx. induction hay as [|b hay IH]; intros Hh.
  - simpl. rewrite orb_false_r.
    destruct (startswith needle []) eqn:Hs; [|reflexivity].
    now rewrite (startswith_chars _ _ _ Hs Hx) in Hh.
  - simpl. destruct (startswith needle (b :: hay)) eqn:Hs.
    + now rewrite (startswith_chars _ _ _ Hs Hx) in Hh.
    + simpl in Hh. apply orb_false_iff in Hh. now apply IH.
Qed.

Lemma uint_digits_absent (x : char) (u : Decimal.uint) :
  ((x <? 48) || (57 <? x))%N = true ->
  existsb (N.eqb x) (uint_digits u) = false.
Proof.
  intros Hx. apply orb_true_iff in Hx.
  assert (Hne : forall d, (48 <= d <= 57)%N -> N.eqb x d = false).
  { intros d Hd. apply N.eqb_neq. destruct Hx as [Hx|Hx];
      apply N.ltb_lt in Hx; lia. }
  induction u; simpl; [reflexivity| rewrite Hne by lia; exact IHu ..].
Qed.

Lemma str_of_nat_absent (x : char) (n : nat) :
  ((x <? 48) || (57 <? x))%N = true ->
  existsb (N.eqb x) (str_of_nat n) = false.
Proof. apply uint_digits_absent. Qed.

(** [absent x]: the line lacks the character [x] of the needle. *)
Ltac absent x :=
  apply (contains_absent x);
  [ reflexivity
  | unfold FinalVerify.sections_line, FinalVerify.all_headers_line,
      FinalVerify.sections_with_metadata_line,
      FinalVerify.horizontal_rules_line, FinalVerify.lines_line,
      FinalVerify.summary_lines;
    rewrite ?existsb_app, ?(str_of_nat_absent x) by reflexivity;
    reflexivity ].

Section CountLines.

Variable content : str.

Lemma toc_not_in_counts :
  contains (lit "Table of Contents") (FinalVerify.sections_line content)
  = false
  /\ contains (lit "Table of Contents")
       (FinalVerify.all_headers_line content) = false
  /\ contains (lit "Table of Contents")
       (FinalVerify.sections_with_metadata_line content) = false
  /\ contains (lit "Table of Contents")
       (FinalVerify.horizontal_rules_line content) = false
  /\ contains (lit "Table of Contents") (FinalVerify.lines_line content)
     = false
  /\ contains (lit "Table of Contents") (FinalVerify.summary_lines content)
     = false.
Proof. repeat split; absent 67%N. Qed.

Lemma metadata_not_in_counts :
  contains (lit "Header metadata") (FinalVerify.sections_line content)
  = false
  /\ contains (lit "Header metadata")
       (FinalVerify.all_headers_line content) = false
  /\ contains (lit "Header metadata")
       (FinalVerify.sections_with_metadata_line content) = false
  /\ contains (lit "Header metadata")
       (FinalVerify.horizontal_rules_line content) = false
  /\ contains (lit "Header metadata") (FinalVerify.lines_line content)
     = false
  /\ contains (lit "Header metadata") (FinalVerify.summary_lines content)
     = false.
Proof. repeat split; (absent 72%N || absent 109%N). Qed.

End CountLines.

(** The census mentions the table of contents exactly when it found the
    marker, and the header metadata exactly when it found all labels. *)
Lemma census_mentions (content : str) :
  mentions (lit "Table of Contents") (FinalVerify.final_verify content [])
  = contains (lit "## Table of Contents") content
  /\ mentions (lit "Header metadata") (FinalVerify.final_verify content [])
     = contains (lit "**Version:**") content
       && contains (lit "**Organization:**") content
       && contains (lit "**Date:**") content.
Proof.
  rewrite final_verify_lines. unfold mentions.
  destruct (toc_not_in_counts content) as (T1 & T2 & T3 & T4 & T5 & T6).
  destruct (metadata_not_in_counts content) as (M1 & M2 & M3 & M4 & M5 & M6).
  rewrite !existsb_app.
  destruct (contains (lit "## Table of Contents") content);
    destruct (contains (lit "**Version:**") content
              && contains (lit "**Organization:**") content
              && contains (lit "**Date:**") content);
    destruct (contains (lit "## Abstract") content);
    destruct (endswith (lit "]") (rstrip content)
              || contains (lit "Reference:") (last_slice 200 content));
    cbn [existsb app];
    rewrite T1, T2, T3, T4, T5, T6, M1, M2, M3, M4, M5, M6;
    split; reflexivity.
Qed.

(** C6.  The table-of-contents line is printed exactly when the literal
    marker ["## Table of Contents"] occurs in the document; otherwise no
    printed line mentions the table of contents at all, so neither a
    differently capitalised heading nor absence is reported. *)
Theorem toc_line_iff_marker (content : str) :
  (In FinalVerify.toc_line (FinalVerify.final_verify content [])
   <-> contains (lit "## Table of Contents") content = true)
  /\ mentions (lit "Table of Contents") (FinalVerify.final_verify content [])
     = contains (lit "## Table of Contents") content.
Proof.
  split; [|apply census_mentions].
  split.
  - intros Hin. rewrite <- (proj1 (census_mentions content)).
    apply existsb_exists. exists FinalVerify.toc_line. split; [exact Hin|].
    reflexivity.
  - intros Hc. rewrite final_verify_lines, Hc.
    rewrite !in_app_iff. right. right. left. now left.
Qed.

(** C5.  The metadata success line is printed exactly when the three
    labels ["**Version:**"], ["**Organization:**"] and ["**Date:**"] all
    occur in the document; when one is missing, no printed line mentions
    the header metadata at all. *)
Theorem metadata_line_iff_all_labels (content : str) :
  (In FinalVerify.metadata_line (FinalVerify.final_verify content [])
   <-> contains (lit "**Version:**") content
       && contains (lit "**Organization:**") content
       && contains (lit "**Date:**") content = true)
  /\ mentions (lit "Header metadata") (FinalVerify.final_verify content [])
     = contains (lit "**Version:**") content
       && contains (lit "**Organization:**") content
       && contains (lit "**Date:**") content.
Proof.
  split; [|apply census_mentions].
  split.
  - intros Hin. rewrite <- (proj2 (census_mentions content)).
    apply existsb_exists. exists FinalVerify.metadata_line.
    split; [exact Hin|]. reflexivity.
  - intros Hc. rewrite final_verify_lines, Hc.
    rewrite !in_app_iff. right. right. right. left. now left.
Qed.

(** A heading that differs from the marker in capitalisation only. *)
Example toc_near_miss :
  let content := unlines [lit "# Guide"; lit "## Table Of Contents"] in
  contains (lit "## Table of Contents") content = false
  /\ mentions (lit "Table of Contents") (FinalVerify.final_verify content [])
     = false.
Proof. vm_compute. split; reflexivity. Qed.

(** Three documents, each missing one of the three labels, and one with
    all of them. *)
Example metadata_labels :
  let version := lit "**Version:** 1.0" in
  let organization := lit "**Organization:** Ember" in
  let date := lit "**Date:** January 2026" in
  let said content :=
    mentions (lit "Header metadata") (FinalVerify.final_verify content []) in
  said (unlines [organization; date]) = false
  /\ said (unlines [version; date]) = false
  /\ said (unlines [version; organization]) = false
  /\ said (unlines [version; organization; date]) = true.
Proof. vm_compute. repeat split. Qed.

(** ** The lines of the catalog check *)

Lemma check_rules (content : str) (rules : list str) :
  forall st,
    fold_left (VerifySections.check_rule content) rules st
    = {| VerifySections.out :=
           VerifySections.out st ++ map (entry content) rules;
         VerifySections.total_rules :=
           VerifySections.total_rules st
           + length (filter (has content) rules) |}.
Proof.
  induction rules as [|rule rules IH]; intros [o n]; simpl.
  - now rewrite app_nil_r, Nat.add_0_r.
  - rewrite IH. unfold VerifySections.check_rule, entry, has, rendered, print.
    destruct (contains (lit "## " ++ rule) content); simpl;
      rewrite <- app_assoc; simpl; f_equal; lia.
Qed.

Lemma check_categories (content : str) (cats : list (str * list str)) :
  forall st,
    fold_left (VerifySections.check_category content) cats st
    = {| VerifySections.out :=
           VerifySections.out st ++ flat_map (category content) cats;
         VerifySections.total_rules :=
           VerifySections.total_rules st
           + length (filter (has content) (flat_map snd cats)) |}.
Proof.
  induction cats as [|[prefix rules] cats IH]; intros [o n]; simpl.
  - now rewrite app_nil_r, Nat.add_0_r.
  - rewrite check_rules, IH. simpl. unfold print, category. simpl.
    rewrite <- !app_assoc. simpl. rewrite filter_app, length_app.
    f_equal. lia.
Qed.

Lemma run_lines (content : str) (out0 : list str) :
  VerifySections.run content out0
  = {| VerifySections.out :=
         out0
         ++ [lit "Verifying all rules are present in AGENTS.md:";
             times 61%N 60]
         ++ flat_map (category content) VerifySections.sections
         ++ [NL :: times 61%N 60;
             VerifySections.total_line
               (length (filter (has content) all_titles))];
       VerifySections.total_rules :=
         length (filter (has content) all_titles) |}.
Proof.
  unfold VerifySections.run. rewrite check_categories.
  unfold print, all_titles. cbn [VerifySections.out VerifySections.total_rules].
  rewrite <- !app_assoc. reflexivity.
Qed.

Lemma entries_missing (content : str) (rules : list str) :
  missing_entries (map (entry content) rules)
  = map VerifySections.missing_line
      (filter (fun r => negb (has content r)) rules).
Proof.
  unfold missing_entries.
  induction rules as [|r rules IH]; [reflexivity|].
  cbn [map filter]. unfold entry at 1 2.
  destruct (has content r); cbn [negb].
  - exact IH.
  - change (startswith missing_mark (VerifySections.missing_line r))
      with true. cbn [map]. now rewrite IH.
Qed.

Lemma entries_found (content : str) (rules : list str) :
  found_entries (map (entry content) rules)
  = map VerifySections.found_line (filter (has content) rules).
Proof.
  unfold found_entries.
  induction rules as [|r rules IH]; [reflexivity|].
  cbn [map filter]. unfold entry at 1 2.
  destruct (has content r).
  - change (startswith found_mark (VerifySections.found_line r)) with true.
    cbn [map]. now rewrite IH.
  - exact IH.
Qed.

Lemma categories_missing (content : str) (cats : list (str * list str)) :
  missing_entries (flat_map (category content) cats)
  = map VerifySections.missing_line
      (filter (fun r => negb (has content r)) (flat_map snd cats)).
Proof.
  induction cats as [|[prefix rules] cats IH]; [reflexivity|].
  cbn [flat_map category fst snd]. unfold missing_entries in *.
  cbn [filter].
  change (startswith missing_mark (VerifySections.category_line prefix rules))
    with false.
  rewrite !filter_app, map_app, IH. f_equal. apply entries_missing.
Qed.

Lemma categories_found (content : str) (cats : list (str * list str)) :
  found_entries (flat_map (category content) cats)
  = map VerifySections.found_line
      (filter (has content) (flat_map snd cats)).
Proof.
  induction cats as [|[prefix rules] cats IH]; [reflexivity|].
  cbn [flat_map category fst snd]. unfold found_entries in *.
  cbn [filter].
  change (startswith found_mark (VerifySections.category_line prefix rules))
    with false.
  rewrite !filter_app, map_app, IH. f_equal. apply entries_found.
Qed.

Lemma total_line_marks (n : nat) :
  startswith missing_mark (VerifySections.total_line n) = false
  /\ startswith found_mark (VerifySections.total_line n) = false.
Proof. split; reflexivity. Qed.

(** Every title of every category is checked and reported: the missing
    titles are listed one by one, in catalog order, and so are the found
    ones; the total counts the found ones. *)
Lemma run_report (content : str) :
  let r := VerifySections.run content [] in
  missing_entries (VerifySections.out r)
  = map VerifySections.missing_line
      (filter (fun t => negb (has content t)) all_titles)
  /\ found_entries (VerifySections.out r)
     = map VerifySections.found_line (filter (has content) all_titles)
  /\ VerifySections.total_rules r
     = length (filter (has content) all_titles)
  /\ last (VerifySections.out r) []
     = VerifySections.total_line (VerifySections.total_rules r).
Proof.
  cbv zeta. rewrite run_lines.
  cbn [VerifySections.out VerifySections.total_rules].
  rewrite app_nil_l.
  split; [|split; [|split]].
  - unfold missing_entries. rewrite !filter_app.
    fold (missing_entries (flat_map (category content) VerifySections.sections)).
    rewrite categories_missing. fold all_titles.
    cbn [filter].
    rewrite ?(proj1 (total_line_marks _)), ?(proj2 (total_line_marks _)).
    change (startswith missing_mark
              (lit "Verifying all rules are present in AGENTS.md:"))
      with false.
    change (startswith missing_mark (times 61%N 60)) with false.
    change (startswith missing_mark (NL :: times 61%N 60)) with false.
    cbv iota. now rewrite app_nil_l, app_nil_r.
  - unfold found_entries. rewrite !filter_app.
    fold (found_entries (flat_map (category content) VerifySections.sections)).
    rewrite categories_found. fold all_titles.
    cbn [filter].
    rewrite ?(proj1 (total_line_marks _)), ?(proj2 (total_line_marks _)).
    change (startswith found_mark
              (lit "Verifying all rules are present in AGENTS.md:"))
      with false.
    change (startswith found_mark (times 61%N 60)) with false.
    change (startswith found_mark (NL :: times 61%N 60)) with false.
    cbv iota. now rewrite app_nil_l, app_nil_r.
  - reflexivity.
  - rewrite !app_assoc.
    change (?l ++ [?a; ?b]) with (l ++ [a] ++ [b]).
    rewrite !app_assoc. apply last_last.
Qed.

(** ** The catalog *)

Lemma all_titles_distinct : NoDup all_titles.
Proof.
  unfold all_titles. cbn.
  repeat (constructor;
          [ let H := fresh in
            intros H; cbn in H;
            repeat (destruct H as [H|H]; [discriminate H|]); exact H
          | ]).
  constructor.
Qed.

Lemma filter_all {A} (P : A -> bool) (l : list A) :
  (forall x, In x l -> P x = true) -> filter P l = l.
Proof.
  induction l as [|x l IH]; intros H; [reflexivity|].
  simpl. rewrite (H x (or_introl eq_refl)). f_equal.
  apply IH. intros y Hy. apply H. now right.
Qed.

Lemma filter_none {A} (P : A -> bool) (l : list A) :
  (forall x, In x l -> P x = false) -> filter P l = [].
Proof.
  induction l as [|x l IH]; intros H; [reflexivity|].
  simpl. rewrite (H x (or_introl eq_refl)).
  apply IH. intros y Hy. apply H. now right.
Qed.

(** In a list without repetition, a predicate that holds of one element
    only selects that element. *)
Lemma filter_only {A} (P : A -> bool) (l : list A) (t : A) :
  NoDup l -> In t l -> P t = true ->
  (forall x, In x l -> x <> t -> P x = false) ->
  filter P l = [t].
Proof.
  induction l as [|x l IH]; intros Hnd Hin Ht Hothers; [contradiction|].
  inversion Hnd as [|? ? Hx Hnd']; subst. simpl.
  destruct Hin as [->|Hin].
  - rewrite Ht. f_equal. apply filter_none. intros y Hy.
    apply Hothers; [now right|]. intros ->. contradiction.
  - rewrite (Hothers x (or_introl eq_refl)) by (intros ->; contradiction).
    apply IH; auto. intros y Hy. apply Hothers. now right.
Qed.

Lemma filter_all_but_one {A} (P : A -> bool) (l : list A) (t : A) :
  NoDup l -> In t l -> P t = false ->
  (forall x, In x l -> x <> t -> P x = true) ->
  S (length (filter P l)) = length l.
Proof.
  induction l as [|x l IH]; intros Hnd Hin Ht Hothers; [contradiction|].
  inversion Hnd as [|? ? Hx Hnd']; subst. simpl.
  destruct Hin as [->|Hin].
  - rewrite Ht. f_equal. f_equal. apply filter_all. intros y Hy.
    apply Hothers; [now right|]. intros ->. contradiction.
  - rewrite (Hothers x (or_introl eq_refl)) by (intros ->; contradiction).
    simpl. f_equal. apply IH; auto. intros y Hy. apply Hothers. now right.
Qed.

Lemma found_line_inj (a b : str) :
  VerifySections.found_line a = VerifySections.found_line b -> a = b.
Proof. unfold VerifySections.found_line. apply app_inv_head. Qed.

(** C3.  When the document contains every expected title rendered as a
    sub-header (["## "] followed by the title), the check finds 23 rules,
    the number of titles of the seven categories, lists no missing entry
    and prints the total 23/23. *)
Theorem all_titles_found (content : str) :
  (forall rule, In rule all_titles ->
     contains (lit "## " ++ rule) content = true) ->
  let r := VerifySections.run content [] in
  VerifySections.total_rules r = 23
  /\ length all_titles = 23
  /\ length VerifySections.sections = 7
  /\ missing_entries (VerifySections.out r) = []
  /\ last (VerifySections.out r) [] = lit "Total rules found: 23/23".
Proof.
  intros Hall r.
  destruct (run_report content) as (Hmiss & _ & Htot & Hlast).
  assert (Hf : filter (has content) all_titles = all_titles)
    by (apply filter_all; exact Hall).
  fold r in Hmiss, Htot, Hlast.
  rewrite Hf in Htot. change (length all_titles) with 23 in Htot.
  split; [|split; [|split; [|split]]].
  - exact Htot.
  - reflexivity.
  - reflexivity.
  - rewrite Hmiss, filter_none; [reflexivity|].
    intros t Ht. unfold has, rendered. now rewrite (Hall t Ht).
  - rewrite Hlast, Htot. reflexivity.
Qed.

(** C4 as amended.  The check is literal substring containment and a
    miss does not stop it: when the rendering ["## "] + title of exactly
    one expected title does not occur in the document, that title is the
    one entry reported missing, every other title is reported found, and
    22 rules are counted. *)
Theorem one_title_missing (content title : str) :
  In title all_titles ->
  contains (lit "## " ++ title) content = false ->
  (forall other, In other all_titles -> other <> title ->
     contains (lit "## " ++ other) content = true) ->
  let r := VerifySections.run content [] in
  missing_entries (VerifySections.out r)
  = [VerifySections.missing_line title]
  /\ (forall other, In other all_titles -> other <> title ->
        In (VerifySections.found_line other) (VerifySections.out r))
  /\ ~ In (VerifySections.found_line title) (VerifySections.out r)
  /\ VerifySections.total_rules r = 22.
Proof.
  intros Hin Hmissing Hothers r.
  destruct (run_report content) as (Hmiss & Hfound & Htot & _).
  fold r in Hmiss, Hfound, Htot.
  split; [|split; [|split]].
  - rewrite Hmiss.
    rewrite (filter_only _ all_titles title all_titles_distinct Hin);
      [reflexivity| |].
    + unfold has, rendered. now rewrite Hmissing.
    + intros x Hx Hne. unfold has, rendered. now rewrite (Hothers x Hx Hne).
  - intros other Ho Hne.
    assert (Hfe : In (VerifySections.found_line other)
                    (found_entries (VerifySections.out r))).
    { rewrite Hfound. apply in_map. apply filter_In. split; [exact Ho|].
      now apply Hothers. }
    unfold found_entries in Hfe. apply filter_In in Hfe. exact (proj1 Hfe).
  - intros Hline.
    assert (Hfe : In (VerifySections.found_line title)
                    (found_entries (VerifySections.out r))).
    { apply filter_In. split; [exact Hline | reflexivity]. }
    rewrite Hfound in Hfe. apply in_map_iff in Hfe.
    destruct Hfe as (t & Ht & Hft). apply found_line_inj in Ht. subst t.
    apply filter_In in Hft. destruct Hft as [_ Hft].
    unfold has, rendered in Hft. congruence.
  - rewrite Htot.
    pose proof (filter_all_but_one (has content) all_titles title
                  all_titles_distinct Hin Hmissing Hothers) as Hlen.
    change (length all_titles) with 23 in Hlen. lia.
Qed.

(** C4 as stated fails: every heading of this document is the rendering
    of its title, except that the heading of "Use Embroider Static Mode"
    carries a trailing exclamation mark; the title is still reported
    found, nothing is reported missing, and 23 rules are counted. *)
Lemma altered_title_still_found :
  let title := lit "Use Embroider Static Mode" in
  let content :=
    Fixture.document_with_heading 4 (rendered title ++ lit "!") in
  let r := VerifySections.run content [] in
  nth 4 all_titles [] = title
  /\ filter (startswith (rendered title)) (split_lines content)
     = [rendered title ++ lit "!"]
  /\ found_entries (VerifySections.out r)
     = map VerifySections.found_line all_titles
  /\ missing_entries (VerifySections.out r) = []
  /\ VerifySections.total_rules r = 23.
Proof. vm_compute. repeat split. Qed.

Lemma all_titles_found_witness :
  (forall rule, In rule all_titles ->
     contains (lit "## " ++ rule) Fixture.complete_document = true)
  /\ let r := VerifySections.run Fixture.complete_document [] in
     VerifySections.total_rules r = 23
     /\ length all_titles = 23
     /\ length VerifySections.sections = 7
     /\ missing_entries (VerifySections.out r) = []
     /\ last (VerifySections.out r) [] = lit "Total rules found: 23/23".
Proof.
  assert (H : forall rule, In rule all_titles ->
                contains (lit "## " ++ rule) Fixture.complete_document = true).
  { assert (Hb : forallb (has Fixture.complete_document) all_titles = true)
      by (vm_compute; reflexivity).
    intros rule Hr. exact (proj1 (forallb_forall _ _) Hb rule Hr). }
  split; [exact H | exact (all_titles_found Fixture.complete_document H)].
Defined.

Lemma one_title_missing_witness :
  let title := lit "Use Embroider Static Mode" in
  let content :=
    Fixture.document_with_heading 4 (lit "## use embroider static mode") in
  In title all_titles
  /\ contains (lit "## " ++ title) content = false
  /\ (forall other, In other all_titles -> other <> title ->
        contains (lit "## " ++ other) content = true)
  /\ let r := VerifySections.run content [] in
     missing_entries (VerifySections.out r)
     = [VerifySections.missing_line title]
     /\ (forall other, In other all_titles -> other <> title ->
           In (VerifySections.found_line other) (VerifySections.out r))
     /\ ~ In (VerifySections.found_line title) (VerifySections.out r)
     /\ VerifySections.total_rules r = 22.
Proof.
  intros title content.
  assert (H1 : In title all_titles).
  { unfold all_titles, title. cbn. do 4 right. left. reflexivity. }
  assert (H2 : contains (lit "## " ++ title) content = false)
    by (vm_compute; reflexivity).
  assert (H3 : forall other, In other all_titles -> other <> title ->
                 contains (lit "## " ++ other) content = true).
  { intros other Ho Hne. unfold all_titles in Ho. cbn in Ho.
    repeat (destruct Ho as [Ho|Ho];
            [ subst other;
              first [ vm_compute; reflexivity
                    | exfalso; apply Hne; reflexivity ] | ]).
    contradiction. }
  split; [exact H1|]. split; [exact H2|]. split; [exact H3|].
  exact (one_title_missing content title H1 H2 H3).
Defined.

(** * Further properties of the two scripts *)

(** ** The census: the other lines *)

Section OtherCountLines.

Variable content : str.

Lemma abstract_not_in_counts :
  contains (lit "Abstract") (FinalVerify.sections_line content) = false
  /\ contains (lit "Abstract") (FinalVerify.all_headers_line content) = false
  /\ contains (lit "Abstract")
       (FinalVerify.sections_with_metadata_line content) = false
  /\ contains (lit "Abstract")
       (FinalVerify.horizontal_rules_line content) = false
  /\ contains (lit "Abstract") (FinalVerify.lines_line content) = false
  /\ contains (lit "Abstract") (FinalVerify.summary_lines content) = false.
Proof. repeat split; absent 65%N. Qed.

Lemma ending_not_in_counts :
  contains (lit "File ends") (FinalVerify.sections_line content) = false
  /\ contains (lit "File ends") (FinalVerify.all_headers_line content) = false
  /\ contains (lit "File ends")
       (FinalVerify.sections_with_metadata_line content) = false
  /\ contains (lit "File ends")
       (FinalVerify.horizontal_rules_line content) = false
  /\ contains (lit "File ends") (FinalVerify.lines_line content) = false
  /\ contains (lit "File ends") (FinalVerify.summary_lines content) = false.
Proof. repeat split; absent 70%N. Qed.

End OtherCountLines.

Lemma census_mentions_more (content : str) :
  mentions (lit "Abstract") (FinalVerify.final_verify content [])
  = contains (lit "## Abstract") content
  /\ mentions (lit "File ends") (FinalVerify.final_verify content [])
     = (endswith (lit "]") (rstrip content)
        || contains (lit "Reference:") (last_slice 200 content)).
Proof.
  rewrite final_verify_lines. unfold mentions.
  destruct (abstract_not_in_counts content) as (A1 & A2 & A3 & A4 & A5 & A6).
  destruct (ending_not_in_counts content) as (E1 & E2 & E3 & E4 & E5 & E6).
  rewrite !existsb_app.
  destruct (contains (lit "## Table of Contents") content);
    destruct (contains (lit "**Version:**") content
              && contains (lit "**Organization:**") content
              && contains (lit "**Date:**") content);
    destruct (contains (lit "## Abstract") content);
    destruct (endswith (lit "]") (rstrip content)
              || contains (lit "Reference:") (last_slice 200 content));
    cbn [existsb app];
    rewrite A1, A2, A3, A4, A5, A6, E1, E2, E3, E4, E5, E6;
    split; reflexivity.
Qed.

(** X2.  The abstract line is printed exactly when ["## Abstract"] occurs
    in the document; otherwise no printed line mentions the abstract. *)
Theorem abstract_line_iff_marker (content : str) :
  (In FinalVerify.abstract_line (FinalVerify.final_verify content [])
   <-> contains (lit "## Abstract") content = true)
  /\ mentions (lit "Abstract") (FinalVerify.final_verify content [])
     = contains (lit "## Abstract") content.
Proof.
  split; [|apply census_mentions_more].
  split.
  - intros Hin. rewrite <- (proj1 (census_mentions_more content)).
    apply existsb_exists. exists FinalVerify.abstract_line.
    split; [exact Hin | reflexivity].
  - intros Hc. rewrite final_verify_lines, Hc.
    rewrite !in_app_iff. do 4 right. left. now left.
Qed.

(** X3.  The line about the end of the file is printed exactly when the
    text, stripped of trailing whitespace, ends with ["]"], or
    ["Reference:"] occurs in its last 200 characters; otherwise no
    printed line speaks of the end of the file. *)
Theorem ending_line_iff_closing (content : str) :
  (In FinalVerify.ending_line (FinalVerify.final_verify content [])
   <-> endswith (lit "]") (rstrip content)
       || contains (lit "Reference:") (last_slice 200 content) = true)
  /\ mentions (lit "File ends") (FinalVerify.final_verify content [])
     = (endswith (lit "]") (rstrip content)
        || contains (lit "Reference:") (last_slice 200 content)).
Proof.
  split; [|apply census_mentions_more].
  split.
  - intros Hin. rewrite <- (proj2 (census_mentions_more content)).
    apply existsb_exists. exists FinalVerify.ending_line.
    split; [exact Hin | reflexivity].
  - intros Hc. rewrite final_verify_lines, Hc.
    rewrite !in_app_iff. do 6 right. left. now left.
Qed.

(** ** The end of the file *)

Lemma lstrip_spaces (ws rest : str) :
  forallb isspace ws = true -> lstrip (ws ++ rest) = lstrip rest.
Proof.
  induction ws as [|c ws IH]; intros H; [reflexivity|].
  simpl in H. apply andb_true_iff in H. destruct H as [Hc H].
  simpl. rewrite Hc. now apply IH.
Qed.

Lemma forallb_rev {A} (P : A -> bool) (l : list A) :
  forallb P l = true -> forallb P (rev l) = true.
Proof.
  intros H. apply forallb_forall. intros x Hx. apply in_rev in Hx.
  now apply (proj1 (forallb_forall P l) H).
Qed.

Lemma ending_line_when (content : str) :
  endswith (lit "]") (rstrip content)
  || contains (lit "Reference:") (last_slice 200 content) = true ->
  In FinalVerify.ending_line (FinalVerify.final_verify content []).
Proof.
  intros Hc. rewrite final_verify_lines, Hc.
  rewrite !in_app_iff. do 6 right. left. now left.
Qed.

(** X4.  Whitespace after the closing bracket does not matter: a text
    whose last character other than whitespace is ["]"] gets the line
    about the end of the file. *)
Theorem ending_ignores_trailing_space (body ws : str) :
  forallb isspace ws = true ->
  rstrip (body ++ lit "]" ++ ws) = body ++ lit "]"
  /\ In FinalVerify.ending_line
       (FinalVerify.final_verify (body ++ lit "]" ++ ws) []).
Proof.
  intros Hws.
  assert (Hstrip : rstrip (body ++ lit "]" ++ ws) = body ++ lit "]").
  { unfold rstrip. rewrite !rev_app_distr, <- app_assoc.
    rewrite lstrip_spaces by now apply forallb_rev.
    change (rev (lit "]")) with [93%N]. cbn [app lstrip].
    change (isspace 93%N) with false. cbv iota. cbn [rev].
    now rewrite rev_involutive. }
  split; [exact Hstrip|].
  apply ending_line_when. rewrite Hstrip.
  unfold endswith. rewrite rev_app_distr. reflexivity.
Qed.

Lemma ending_ignores_trailing_space_witness :
  let body := lit "[1]: https://guides.emberjs.com [guides" in
  let ws := [NL; 32; 9; NL]%N in
  forallb isspace ws = true
  /\ rstrip (body ++ lit "]" ++ ws) = body ++ lit "]"
  /\ In FinalVerify.ending_line
       (FinalVerify.final_verify (body ++ lit "]" ++ ws) []).
Proof.
  intros body ws.
  split; [reflexivity | exact (ending_ignores_trailing_space body ws eq_refl)].
Defined.

(** X5.  ["Reference:"] is looked for in the last 200 characters only:
    what stands before a tail of at least 200 characters has no part in
    that test. *)
Theorem reference_only_in_tail (front tail : str) :
  200 <= length tail ->
  last_slice 200 (front ++ tail) = last_slice 200 tail
  /\ length (last_slice 200 (front ++ tail)) = 200
  /\ contains (lit "Reference:") (last_slice 200 (front ++ tail))
     = contains (lit "Reference:") (last_slice 200 tail).
Proof.
  intros Hlen.
  assert (Hs : last_slice 200 (front ++ tail) = last_slice 200 tail).
  { unfold last_slice. rewrite length_app, skipn_app.
    replace (length front + length tail - 200 - length front)
      with (length tail - 200) by lia.
    rewrite skipn_all2 by lia. reflexivity. }
  split; [exact Hs|]. split; [|now rewrite Hs].
  rewrite Hs. unfold last_slice. rewrite length_skipn. lia.
Qed.

Lemma reference_only_in_tail_witness :
  let front := lit "Reference: https://emberjs.com" in
  let tail := times 120%N 200 in
  200 <= length tail
  /\ last_slice 200 (front ++ tail) = last_slice 200 tail
  /\ length (last_slice 200 (front ++ tail)) = 200
  /\ contains (lit "Reference:") (last_slice 200 (front ++ tail))
     = contains (lit "Reference:") (last_slice 200 tail).
Proof.
  intros front tail.
  assert (H : 200 <= length tail) by (vm_compute; apply le_n).
  split; [exact H | exact (reference_only_in_tail front tail H)].
Defined.

(** ** Counting by lines *)

Lemma split_lines_nonempty (s : str) : split_lines s <> [].
Proof.
  destruct s as [|c s]; [discriminate|].
  simpl. destruct (N.eqb c NL); [discriminate|].
  destruct (split_lines s); discriminate.
Qed.

Lemma split_lines_app (a b : str) :
  split_lines (a ++ NL :: b) = split_lines a ++ split_lines b.
Proof.
  induction a as [|c a IH]; [reflexivity|].
  destruct (N.eqb c NL) eqn:Hc.
  - apply N.eqb_eq in Hc. subst c. cbn [app].
    rewrite !split_lines_newline, IH. reflexivity.
  - cbn [app]. rewrite !(split_lines_other _ _ Hc), IH.
    pose proof (split_lines_nonempty a) as Hne.
    destruct (split_lines a) as [|l ls]; [contradiction | reflexivity].
Qed.

Lemma lines_pieces (s : str) : S (count NL s) = length (split_lines s).
Proof.
  unfold count. induction s as [|c s IH]; [reflexivity|].
  cbn [filter]. rewrite (N.eqb_sym NL c).
  destruct (N.eqb c NL) eqn:Hc.
  - apply N.eqb_eq in Hc. subst c. rewrite split_lines_newline.
    cbn [length]. now rewrite IH.
  - rewrite (split_lines_other _ _ Hc). rewrite IH.
    pose proof (split_lines_nonempty s) as Hne.
    destruct (split_lines s); [contradiction | reflexivity].
Qed.

Lemma sections_count_lines (content : str) :
  length (FinalVerify.sections content)
  = length (filter is_numbered_header (split_lines content)).
Proof.
  unfold FinalVerify.sections, FinalVerify.sections_re.
  rewrite findall_lines by reflexivity.
  apply f_equal, filter_ext, numbered_header_line.
Qed.

Lemma rules_count_lines (content : str) :
  FinalVerify.horizontal_rules content
  = length (filter is_rule (split_lines content)).
Proof.
  unfold FinalVerify.horizontal_rules, FinalVerify.horizontal_rules_re.
  rewrite findall_lines by reflexivity.
  apply f_equal, filter_ext_in. intros l Hl. apply rule_line.
  pose proof (split_lines_no_newline content) as Hnl.
  rewrite Forall_forall in Hnl. now apply Hnl.
Qed.

Lemma filter_disjoint_length {A} (P Q : A -> bool) (l : list A) :
  (forall x, P x = true -> Q x = false) ->
  length (filter P l) + length (filter Q l) <= length l.
Proof.
  intros H. induction l as [|x l IH]; [reflexivity|].
  simpl. destruct (P x) eqn:HP.
  - rewrite (H x HP). simpl. lia.
  - destruct (Q x); simpl; lia.
Qed.

Lemma header_is_no_rule (l : str) : is_header l = true -> is_rule l = false.
Proof.
  unfold is_header, is_rule.
  destruct l as [|a [|b [|c [|d l]]]]; try reflexivity.
  cbn -[N.eqb]. intros H. apply andb_true_iff in H. destruct H as [H _].
  apply N.eqb_eq in H. subst a. reflexivity.
Qed.

(** X7.  The line counts of the census add up over a newline: the count
    of a text made of two parts joined by one newline is the sum of the
    counts of the parts, for the main sections, the headers and the
    horizontal rules; the total of lines is the sum plus one. *)
Theorem counts_add_over_newline (a b : str) :
  length (FinalVerify.sections (a ++ NL :: b))
  = length (FinalVerify.sections a) + length (FinalVerify.sections b)
  /\ length (FinalVerify.all_headers (a ++ NL :: b))
     = length (FinalVerify.all_headers a)
       + length (FinalVerify.all_headers b)
  /\ FinalVerify.horizontal_rules (a ++ NL :: b)
     = FinalVerify.horizontal_rules a + FinalVerify.horizontal_rules b
  /\ FinalVerify.lines (a ++ NL :: b)
     = FinalVerify.lines a + 1 + FinalVerify.lines b.
Proof.
  rewrite !sections_count_lines, !all_headers_by_lines, !rules_count_lines.
  unfold count_lines. rewrite split_lines_app, !filter_app, !length_app.
  repeat (split; [reflexivity|]).
  pose proof (lines_pieces (a ++ NL :: b)) as H.
  pose proof (lines_pieces a) as Ha. pose proof (lines_pieces b) as Hb.
  rewrite split_lines_app, length_app in H.
  unfold FinalVerify.lines. lia.
Qed.

(** ** Substrings *)

Lemma startswith_app_r (needle hay post : str) :
  startswith needle hay = true -> startswith needle (hay ++ post) = true.
Proof.
  revert hay. induction needle as [|a needle IH]; intros hay H;
    [reflexivity|].
  destruct hay as [|b hay]; [discriminate|].
  simpl in *. apply andb_true_iff in H. destruct H as [Hab H].
  rewrite Hab. now apply IH.
Qed.

Lemma contains_app_r (needle hay post : str) :
  contains needle hay = true -> contains needle (hay ++ post) = true.
Proof.
  induction hay as [|b hay IH]; intros H.
  - simpl in H. rewrite orb_false_r in H.
    apply (startswith_app_r _ _ post) in H. simpl in H.
    destruct post; simpl; rewrite H; reflexivity.
  - simpl in H. apply orb_true_iff in H. cbn [app contains].
    apply orb_true_iff. destruct H as [H|H].
    + left. now apply (startswith_app_r _ _ post) in H.
    + right. now apply IH.
Qed.

Lemma contains_app_l (needle pre hay : str) :
  contains needle hay = true -> contains needle (pre ++ hay) = true.
Proof.
  intros H. induction pre as [|b pre IH]; [exact H|].
  cbn [app contains]. rewrite IH. apply orb_true_r.
Qed.

Lemma contains_skipn (needle : str) (k : nat) (hay : str) :
  contains needle (skipn k hay) = true -> contains needle hay = true.
Proof.
  intros H. rewrite <- (firstn_skipn k hay). now apply contains_app_l.
Qed.

Lemma find_contains (needle hay : str) (d : nat) :
  find needle hay = Some d -> contains needle hay = true.
Proof.
  revert d. induction hay as [|b hay IH]; intros d H; simpl in *.
  - destruct (startswith needle []); [reflexivity | discriminate].
  - destruct (startswith needle (b :: hay)); [reflexivity|].
    destruct (find needle hay) as [e|]; [|discriminate].
    simpl. now apply (IH e).
Qed.

(** Without the marker the metadata pattern matches nowhere. *)
Lemma no_marker_no_match (content : str) :
  contains impact_marker content = false ->
  FinalVerify.sections_with_metadata content = 0.
Proof.
  unfold FinalVerify.sections_with_metadata, findall. intros H.
  enough (G : forall prev skip,
             length (scan FinalVerify.M_S FinalVerify.section_pattern
                       prev skip content) = 0) by apply G.
  revert H. induction content as [|c s IH]; intros H prev skip.
  - destruct skip; [|reflexivity].
    cbn [scan]. rewrite section_pattern_match. reflexivity.
  - assert (Hs : contains impact_marker s = false).
    { cbn [contains] in H. now apply orb_false_iff in H. }
    destruct skip as [|k]; [|cbn [scan]; now apply IH].
    cbn [scan]. rewrite section_pattern_match.
    destruct (find impact_marker (skipn 7 (c :: s))) as [d|] eqn:Hf.
    + apply find_contains, contains_skipn in Hf. congruence.
    + destruct (heading_token (c :: s)); now apply IH.
Qed.

(** ** The catalog check on every document *)

Lemma filter_split_length {A} (P : A -> bool) (l : list A) :
  length (filter P l) + length (filter (fun x => negb (P x)) l) = length l.
Proof.
  induction l as [|x l IH]; [reflexivity|].
  simpl. destruct (P x); simpl; lia.
Qed.

Lemma entry_is_entry (content rule : str) :
  startswith found_mark (entry content rule)
  || startswith missing_mark (entry content rule) = true.
Proof. unfold entry. destruct (has content rule); reflexivity. Qed.

Lemma categories_entries (content : str) (cats : list (str * list str)) :
  filter (fun l => startswith found_mark l || startswith missing_mark l)
    (flat_map (category content) cats)
  = map (entry content) (flat_map snd cats).
Proof.
  induction cats as [|[prefix rules] cats IH]; [reflexivity|].
  cbn [flat_map]. unfold category at 1. cbn [fst snd app filter].
  change (startswith found_mark (VerifySections.category_line prefix rules))
    with false.
  change (startswith missing_mark (VerifySections.category_line prefix rules))
    with false.
  cbn [orb]. rewrite filter_app, map_app, IH. f_equal.
  apply filter_all. intros l Hl. apply in_map_iff in Hl.
  destruct Hl as (r & <- & _). apply entry_is_entry.
Qed.

Lemma categories_length (content : str) (cats : list (str * list str)) :
  length (flat_map (category content) cats)
  = length cats + length (flat_map snd cats).
Proof.
  induction cats as [|[prefix rules] cats IH]; [reflexivity|].
  cbn [flat_map]. unfold category at 1. cbn [fst snd app length].
  rewrite !length_app, length_map, IH. lia.
Qed.

(** X11.  Text added before or after a document never loses a rule: every
    title reported found stays found, and the total does not go down. *)
Theorem added_text_keeps_rules (content before after : str) :
  let r := VerifySections.run content [] in
  let r' := VerifySections.run (before ++ content ++ after) [] in
  incl (found_entries (VerifySections.out r))
       (found_entries (VerifySections.out r'))
  /\ VerifySections.total_rules r <= VerifySections.total_rules r'.
Proof.
  cbv zeta.
  destruct (run_report content) as (_ & Hfound & Htot & _).
  destruct (run_report (before ++ content ++ after))
    as (_ & Hfound' & Htot' & _).
  cbv zeta in Hfound, Htot, Hfound', Htot'.
  assert (Hmono : forall t, has content t = true ->
                    has (before ++ content ++ after) t = true).
  { intros t Ht. unfold has in *.
    now apply contains_app_l, contains_app_r. }
  split.
  - rewrite Hfound, Hfound'. intros l Hl. apply in_map_iff in Hl.
    destruct Hl as (t & <- & Ht). apply in_map. apply filter_In in Ht.
    apply filter_In. split; [apply Ht | apply Hmono, Ht].
  - rewrite Htot, Htot'. apply filter_length_le. intros t _. apply Hmono.
Qed.

(** ** Substrings and lines *)

Lemma startswith_first_line (needle s : str) :
  no_newline needle = true ->
  startswith needle s = startswith needle (hd [] (split_lines s)).
Proof.
  revert s. induction needle as [|a needle IH]; intros s Hn; [reflexivity|].
  unfold no_newline in Hn. cbn [forallb] in Hn.
  apply andb_true_iff in Hn. destruct Hn as [Ha Hn].
  apply negb_true_iff in Ha.
  destruct s as [|c s]; [reflexivity|].
  destruct (N.eqb c NL) eqn:Hc.
  - apply N.eqb_eq in Hc. subst c. rewrite split_lines_newline.
    cbn [hd startswith]. now rewrite Ha.
  - rewrite (split_lines_other _ _ Hc). cbn [hd startswith].
    now rewrite (IH s Hn).
Qed.

(** A text without newline occurs in a document exactly when it occurs in
    one of its lines. *)
Lemma contains_by_lines (needle s : str) :
  no_newline needle = true ->
  contains needle s = existsb (contains needle) (split_lines s).
Proof.
  intros Hn. induction s as [|c s IH].
  - cbn [split_lines existsb]. now rewrite orb_false_r.
  - cbn [contains]. rewrite (startswith_first_line _ (c :: s) Hn), IH.
    destruct (N.eqb c NL) eqn:Hc.
    + apply N.eqb_eq in Hc. subst c. rewrite split_lines_newline.
      cbn [hd existsb contains]. now rewrite orb_false_r.
    + rewrite (split_lines_other _ _ Hc).
      pose proof (split_lines_nonempty s) as Hne.
      destruct (split_lines s) as [|l ls]; [contradiction|].
      cbn [hd tl existsb contains]. now rewrite orb_assoc.
Qed.

Lemma titles_on_one_line :
  forallb (fun t => no_newline (rendered t)) all_titles = true.
Proof. reflexivity. Qed.

(** X12.  An expected title is reported found exactly when some line of
    the document contains ["## "] followed by the title, at any place in
    that line: the line need not be a heading of its own. *)
Theorem found_iff_some_line (content title : str) :
  In title all_titles ->
  In (VerifySections.found_line title)
     (VerifySections.out (VerifySections.run content []))
  <-> exists line,
        In line (split_lines content)
        /\ contains (lit "## " ++ title) line = true.
Proof.
  intros Hin.
  destruct (run_report content) as (_ & Hfound & _).
  cbv zeta in Hfound.
  assert (Hlines : has content title = true
                   <-> exists line, In line (split_lines content)
                         /\ contains (lit "## " ++ title) line = true).
  { unfold has. rewrite contains_by_lines.
    - apply existsb_exists.
    - exact (proj1 (forallb_forall _ _) titles_on_one_line title Hin). }
  rewrite <- Hlines. split.
  - intros Hline.
    assert (Hfe : In (VerifySections.found_line title)
                    (found_entries
                       (VerifySections.out (VerifySections.run content [])))).
    { apply filter_In. split; [exact Hline | reflexivity]. }
    rewrite Hfound in Hfe. apply in_map_iff in Hfe.
    destruct Hfe as (t & Ht & Hft). apply found_line_inj in Ht. subst t.
    apply filter_In in Hft. apply Hft.
  - intros Hhas.
    assert (Hfe : In (VerifySections.found_line title)
                    (found_entries
                       (VerifySections.out (VerifySections.run content [])))).
    { rewrite Hfound. apply in_map. apply filter_In. now split. }
    unfold found_entries in Hfe. apply filter_In in Hfe. exact (proj1 Hfe).
Qed.

Lemma found_iff_some_line_witness :
  let title := lit "Use Embroider Static Mode" in
  let content :=
    unlines [lit "# Notes";
             lit "see ### Use Embroider Static Mode (draft), below"] in
  In title all_titles
  /\ (In (VerifySections.found_line title)
         (VerifySections.out (VerifySections.run content []))
      <-> exists line,
            In line (split_lines content)
            /\ contains (lit "## " ++ title) line = true).
Proof.
  intros title content.
  assert (H : In title all_titles).
  { unfold all_titles, title. cbn. do 4 right. left. reflexivity. }
  split; [exact H | exact (found_iff_some_line content title H)].
Defined.

(** ** A well-formed section *)

Lemma scan_heading_to_impact (s : str) :
  forall prev skip,
    length (scan FinalVerify.M_S FinalVerify.section_pattern prev skip s)
    = heading_to_impact skip s.
Proof.
  induction s as [|c s IH]; intros prev skip.
  - destruct skip; [|reflexivity].
    cbn [scan]. rewrite section_pattern_match. reflexivity.
  - destruct skip as [|k]; [|cbn [scan heading_to_impact]; apply IH].
    cbn [scan heading_to_impact]. rewrite section_pattern_match.
    destruct (heading_token (c :: s)); [|apply IH].
    destruct (find impact_marker (skipn 7 (c :: s))) as [d|];
      [|apply IH].
    cbn [option_map length]. f_equal. apply IH.
Qed.

Lemma heading_to_impact_pass (x rest : str) :
  heading_to_impact (length x) (x ++ rest) = heading_to_impact 0 rest.
Proof.
  induction x as [|c x IH]; [reflexivity|].
  cbn [length app heading_to_impact]. exact IH.
Qed.

Lemma heading_to_impact_free (pre s : str) :
  token_within (length pre) (pre ++ s) = false ->
  heading_to_impact 0 (pre ++ s) = heading_to_impact 0 s.
Proof.
  induction pre as [|c pre IH]; intros H; [reflexivity|].
  cbn [length app token_within] in H. apply orb_false_iff in H.
  destruct H as [Ht H].
  cbn [app heading_to_impact]. cbn [app] in Ht. rewrite Ht.
  now apply IH.
Qed.

Lemma find_marker_after_line (p rest : str) :
  no_newline p = true ->
  find impact_marker (p ++ impact_marker ++ rest) = Some (length p).
Proof.
  induction p as [|a p IH]; intros Hn; [reflexivity|].
  unfold no_newline in Hn. cbn [forallb] in Hn.
  apply andb_true_iff in Hn. destruct Hn as [Ha Hn].
  apply negb_true_iff in Ha.
  cbn [app find length].
  replace (startswith impact_marker (a :: p ++ impact_marker ++ rest))
    with false.
  - now rewrite (IH Hn).
  - unfold impact_marker. cbn [startswith].
    now rewrite (N.eqb_sym NL a), Ha.
Qed.

(** X13.  A section laid out as the census expects it counts once, and
    the count goes on with what follows its marker: after a text in which
    no heading token starts, a heading token with a digit, a title of at
    least one character on the heading line, a blank line and
    ["**Impact:**"] add one to the count of the rest of the document. *)
Theorem well_formed_section_counts_once (pre title rest : str) (d : char) :
  isdecimal d = true ->
  title <> [] ->
  no_newline title = true ->
  token_within (length pre) (pre ++ section_block d title ++ rest) = false ->
  FinalVerify.sections_with_metadata (pre ++ section_block d title ++ rest)
  = S (FinalVerify.sections_with_metadata rest).
Proof.
  intros Hd Ht Hn Hpre.
  unfold FinalVerify.sections_with_metadata, findall.
  rewrite !scan_heading_to_impact.
  rewrite (heading_to_impact_free _ _ Hpre).
  destruct title as [|t title]; [contradiction|].
  unfold no_newline in Hn. cbn [forallb] in Hn.
  apply andb_true_iff in Hn. destruct Hn as [_ Hn].
  unfold section_block.
  cbn [lit list_ascii_of_string map app].
  change (N_of_ascii "#") with 35%N. change (N_of_ascii " ") with 32%N.
  change (N_of_ascii ".") with 46%N.
  cbn [heading_to_impact heading_token skipn].
  rewrite Hd. cbn -[impact_marker heading_to_impact find].
  rewrite <- app_assoc, (find_marker_after_line title rest Hn).
  f_equal. rewrite <- length_app, app_assoc.
  apply heading_to_impact_pass.
Qed.

Lemma well_formed_section_counts_once_witness :
  let pre := unlines [lit "# Guide"; lit "## Table of Contents"; lit "---"] in
  let title := lit "Route Loading" in
  let rest := unlines [lit " CRITICAL"; lit "### 1.1 Details"] in
  isdecimal 49%N = true
  /\ title <> []
  /\ no_newline title = true
  /\ token_within (length pre) (pre ++ section_block 49%N title ++ rest)
     = false
  /\ FinalVerify.sections_with_metadata
       (pre ++ section_block 49%N title ++ rest)
     = S (FinalVerify.sections_with_metadata rest).
Proof.
  intros pre title rest.
  assert (H1 : isdecimal 49%N = true) by reflexivity.
  assert (H2 : title <> []) by discriminate.
  assert (H3 : no_newline title = true) by reflexivity.
  assert (H4 : token_within (length pre)
                 (pre ++ section_block 49%N title ++ rest) = false)
    by (vm_compute; reflexivity).
  repeat (split; [assumption|]).
  exact (well_formed_section_counts_once pre title rest 49%N H1 H2 H3 H4).
Defined.

(** * What the census prints for its counts *)

(** ** Reading a number back from a printed line *)

Lemma uint_digits_inj (u v : Decimal.uint) :
  uint_digits u = uint_digits v -> u = v.
Proof.
  revert v. induction u; intros v H; destruct v; simpl in H;
    try discriminate H; try reflexivity;
    injection H as H; f_equal; auto.
Qed.

Lemma str_of_nat_inj (n m : nat) : str_of_nat n = str_of_nat m -> n = m.
Proof.
  intros H. apply Unsigned.to_uint_inj, uint_digits_inj, H.
Qed.

(** ** The lines the census can print *)

Lemma in_optional_line {A} (b : bool) (x l : A) :
  In l (if b then [x] else []) -> l = x.
Proof. destruct b; [intros [H|[]]; now symmetry | intros []]. Qed.

Lemma census_lines_among (content l : str) :
  In l (FinalVerify.final_verify content []) ->
  In l [FinalVerify.sections_line content;
        FinalVerify.all_headers_line content;
        FinalVerify.toc_line; FinalVerify.metadata_line;
        FinalVerify.abstract_line;
        FinalVerify.sections_with_metadata_line content;
        FinalVerify.horizontal_rules_line content;
        FinalVerify.lines_line content;
        FinalVerify.ending_line;
        FinalVerify.banner; FinalVerify.summary_title;
        FinalVerify.summary_sections; FinalVerify.summary_rules;
        FinalVerify.summary_lines content; FinalVerify.summary_format].
Proof.
  rewrite final_verify_lines. intros H.
  repeat (apply in_app_or in H; destruct H as [H|H]);
    try (apply in_optional_line in H; symmetry in H);
    cbn [In] in H; cbn [In]; tauto.
Qed.

(** The count lines, where the census prints them. *)
Lemma census_count_lines (content : str) :
  In (FinalVerify.sections_line content)
     (FinalVerify.final_verify content [])
  /\ In (FinalVerify.all_headers_line content)
        (FinalVerify.final_verify content [])
  /\ In (FinalVerify.sections_with_metadata_line content)
        (FinalVerify.final_verify content [])
  /\ In (FinalVerify.horizontal_rules_line content)
        (FinalVerify.final_verify content [])
  /\ In (FinalVerify.lines_line content)
        (FinalVerify.final_verify content []).
Proof.
  rewrite final_verify_lines. rewrite !in_app_iff. cbn [In].
  repeat split; tauto.
Qed.

(** [other_line H]: the two lines of [H] differ in their first nine
    characters. *)
Ltac other_line H :=
  apply (f_equal (firstn 9)) in H; lazy in H; discriminate H.

(** [same_line H]: the two lines of [H] have the same label, so they
    carry the same number. *)
Ltac same_line H :=
  unfold FinalVerify.sections_line, FinalVerify.all_headers_line,
    FinalVerify.sections_with_metadata_line,
    FinalVerify.horizontal_rules_line, FinalVerify.lines_line,
    FinalVerify.tick, count_report in H;
  rewrite ?app_assoc in H; try apply app_inv_tail in H;
  rewrite <- ?app_assoc in H;
  do 2 apply app_inv_head in H;
  apply str_of_nat_inj in H; symmetry; exact H.

Ltac only_line H :=
  apply census_lines_among in H; cbn [In] in H;
  repeat (destruct H as [H|H]; [first [other_line H | same_line H]|]);
  contradiction.

Lemma reported_sections (content : str) (n : nat) :
  In (count_report "Number of main sections: " n)
     (FinalVerify.final_verify content [])
  <-> n = length (FinalVerify.sections content).
Proof.
  split; [intros H; only_line H | intros ->; apply census_count_lines].
Qed.

Lemma reported_headers (content : str) (n : nat) :
  In (count_report "Total headers (##): " n)
     (FinalVerify.final_verify content [])
  <-> n = length (FinalVerify.all_headers content).
Proof.
  split; [intros H; only_line H | intros ->; apply census_count_lines].
Qed.

Lemma reported_metadata (content : str) (n : nat) :
  In (count_report "Sections with metadata: " n ++ lit "/7")
     (FinalVerify.final_verify content [])
  <-> n = FinalVerify.sections_with_metadata content.
Proof.
  split; [intros H; only_line H|].
  intros ->. unfold count_report. rewrite <- !app_assoc.
  apply census_count_lines.
Qed.

Lemma reported_rules (content : str) (n : nat) :
  In (count_report "Horizontal rule separators: " n)
     (FinalVerify.final_verify content [])
  <-> n = FinalVerify.horizontal_rules content.
Proof.
  split; [intros H; only_line H | intros ->; apply census_count_lines].
Qed.

Lemma reported_lines (content : str) (n : nat) :
  In (count_report "Total lines: " n)
     (FinalVerify.final_verify content [])
  <-> n = FinalVerify.lines content.
Proof.
  split; [intros H; only_line H | intros ->; apply census_count_lines].
Qed.

(** ** The reported counts *)

Lemma sections_le_headers (content : str) :
  length (FinalVerify.sections content)
  <= length (FinalVerify.all_headers content).
Proof.
  rewrite sections_count_lines, all_headers_by_lines.
  apply filter_length_le. intros l _. apply numbered_header_is_header.
Qed.

(** C2.  The census prints the line "Number of main sections: n" for
    exactly one number n: the number of lines of the document that start
    with the numbered second-level header pattern (["## "], one digit, a
    period, a space), whatever surrounds them. *)
Theorem main_section_count (content : str) :
  length (FinalVerify.sections content)
  = count_lines is_numbered_header content
  /\ forall n,
       In (count_report "Number of main sections: " n)
          (FinalVerify.final_verify content [])
       <-> n = count_lines is_numbered_header content.
Proof.
  split.
  - apply sections_count_lines.
  - intros n. rewrite reported_sections, sections_count_lines.
    reflexivity.
Qed.

(** C7.  The census prints the line "Horizontal rule separators: n" for
    exactly one number n: the number of lines of the document that are
    exactly ["---"]. *)
Theorem horizontal_rule_count (content : str) :
  FinalVerify.horizontal_rules content = count_lines is_rule content
  /\ forall n,
       In (count_report "Horizontal rule separators: " n)
          (FinalVerify.final_verify content [])
       <-> n = count_lines is_rule content.
Proof.
  split.
  - apply rules_count_lines.
  - intros n. rewrite reported_rules, rules_count_lines. reflexivity.
Qed.

(** C9.  The census prints one main-section count and one total header
    count, and the first never exceeds the second. *)
Theorem main_sections_le_all_headers (content : str) :
  exists sections headers,
    (forall n, In (count_report "Number of main sections: " n)
                  (FinalVerify.final_verify content [])
               <-> n = sections)
    /\ (forall n, In (count_report "Total headers (##): " n)
                     (FinalVerify.final_verify content [])
                  <-> n = headers)
    /\ sections <= headers.
Proof.
  exists (length (FinalVerify.sections content)),
         (length (FinalVerify.all_headers content)).
  split; [|split].
  - intros n. apply reported_sections.
  - intros n. apply reported_headers.
  - apply sections_le_headers.
Qed.

(** C1 as amended.  The census prints the line
    "Sections with metadata: n/7" for exactly one number n: the number of
    regions that open at a numbered heading token (["## "], digit,
    period, space, anywhere in a line) and close at the first blank line
    followed by ["**Impact:**"] that starts at least one character after
    the token, the regions taken from left to right without overlap;
    whatever lies between the token and the marker, other lines included,
    belongs to the region. *)
Theorem sections_with_metadata_regions (content : str) :
  FinalVerify.sections_with_metadata content
  = regions_heading_to_impact content
  /\ forall n,
       In (count_report "Sections with metadata: " n ++ lit "/7")
          (FinalVerify.final_verify content [])
       <-> n = regions_heading_to_impact content.
Proof.
  assert (H : FinalVerify.sections_with_metadata content
              = regions_heading_to_impact content).
  { unfold FinalVerify.sections_with_metadata, regions_heading_to_impact,
      findall. apply scan_heading_to_impact. }
  split; [exact H|].
  intros n. rewrite reported_metadata, H. reflexivity.
Qed.

(** X1.  The census prints the line "Total headers (##): n" for exactly
    one number n: the number of lines of the document that start with
    ["## "]; a deeper header (["### "]) or a header without the space is
    not one of them. *)
Theorem total_header_count (content : str) :
  (forall n,
     In (count_report "Total headers (##): " n)
        (FinalVerify.final_verify content [])
     <-> n = count_lines is_header content)
  /\ (forall rest, is_header (lit "### " ++ rest) = false)
  /\ (forall c rest, c <> 32%N -> is_header (lit "##" ++ c :: rest) = false).
Proof.
  split; [|split].
  - intros n. rewrite reported_headers, all_headers_by_lines. reflexivity.
  - reflexivity.
  - intros c rest Hc. unfold is_header. cbn -[N.eqb].
    rewrite (N.eqb_sym 32 c). apply N.eqb_neq in Hc. now rewrite Hc.
Qed.

(** X6.  The census prints the line "Total lines: n" for exactly one
    number n, the number of newline characters: one less than the number
    of pieces the newlines cut the text into.  So a last line without a
    newline is not counted, a text that ends in a newline is reported
    with as many lines as it has, and the empty text with 0. *)
Theorem total_lines_count (content : str) :
  (forall n,
     In (count_report "Total lines: " n)
        (FinalVerify.final_verify content [])
     <-> S n = length (split_lines content))
  /\ (forall n,
        In (count_report "Total lines: " n)
           (FinalVerify.final_verify (content ++ [NL]) [])
        <-> n = length (split_lines content))
  /\ In (count_report "Total lines: " 0) (FinalVerify.final_verify [] []).
Proof.
  split; [|split].
  - intros n. rewrite reported_lines. unfold FinalVerify.lines.
    pose proof (lines_pieces content). split; intros; lia.
  - intros n. rewrite reported_lines. unfold FinalVerify.lines.
    pose proof (lines_pieces (content ++ [NL])) as H.
    rewrite split_lines_app, length_app in H. cbn [split_lines length] in H.
    split; intros; lia.
  - apply reported_lines. reflexivity.
Qed.

(** X8.  No line is both a header and a horizontal rule, so the headers
    and the rules together never outnumber the lines: the reported total
    header count plus the reported rule count is at most the reported
    total of lines plus one. *)
Theorem headers_and_rules_within_lines (content : str) :
  exists headers rules total,
    (forall n, In (count_report "Total headers (##): " n)
                  (FinalVerify.final_verify content [])
               <-> n = headers)
    /\ (forall n, In (count_report "Horizontal rule separators: " n)
                     (FinalVerify.final_verify content [])
                  <-> n = rules)
    /\ (forall n, In (count_report "Total lines: " n)
                     (FinalVerify.final_verify content [])
                  <-> n = total)
    /\ headers + rules <= S total.
Proof.
  exists (length (FinalVerify.all_headers content)),
         (FinalVerify.horizontal_rules content),
         (FinalVerify.lines content).
  split; [|split; [|split]].
  - intros n. apply reported_headers.
  - intros n. apply reported_rules.
  - intros n. apply reported_lines.
  - rewrite all_headers_by_lines, rules_count_lines.
    unfold count_lines, FinalVerify.lines. rewrite lines_pieces.
    apply filter_disjoint_length, header_is_no_rule.
Qed.

(** X9.  A document in which no blank line is followed by ["**Impact:**"]
    is reported with "Sections with metadata: 0/7", and with no other
    number, however many headings it has. *)
Theorem no_marker_no_metadata (content : str) :
  contains impact_marker content = false ->
  forall n,
    In (count_report "Sections with metadata: " n ++ lit "/7")
       (FinalVerify.final_verify content [])
    <-> n = 0.
Proof.
  intros H n. rewrite reported_metadata, (no_marker_no_match content H).
  reflexivity.
Qed.

Lemma no_marker_no_metadata_witness :
  let content :=
    unlines [lit "## 1. Setup"; lit ""; lit "**Impact: HIGH**"; lit "";
             lit "## 2. Usage"; lit "**Impact:** LOW"] in
  contains impact_marker content = false
  /\ forall n,
       In (count_report "Sections with metadata: " n ++ lit "/7")
          (FinalVerify.final_verify content [])
       <-> n = 0.
Proof.
  intros content.
  assert (H : contains impact_marker content = false) by reflexivity.
  split; [exact H | exact (no_marker_no_metadata content H)].
Defined.

(** ** The size of the catalog report *)

Lemma count_app (c : char) (a b : str) :
  count c (a ++ b) = count c a + count c b.
Proof. unfold count. now rewrite filter_app, length_app. Qed.

Lemma count_absent (c : char) (l : str) :
  existsb (N.eqb c) l = false -> count c l = 0.
Proof.
  unfold count. induction l as [|x l IH]; intros H; [reflexivity|].
  simpl in H. apply orb_false_iff in H. destruct H as [Hx H].
  simpl. rewrite Hx. now apply IH.
Qed.

Lemma no_newline_count (l : str) : no_newline l = true -> count NL l = 0.
Proof.
  intros H. apply count_absent. induction l as [|x l IH]; [reflexivity|].
  unfold no_newline in H. cbn [forallb] in H.
  apply andb_true_iff in H. destruct H as [Hx H].
  apply negb_true_iff in Hx. cbn [existsb].
  rewrite (N.eqb_sym NL x), Hx. now apply IH.
Qed.

(** Every printed string ends its last line, and each newline inside it
    ends one more. *)
Lemma render_lines (out : list str) :
  text_lines out = length out + count NL (concat out).
Proof.
  unfold text_lines, render. induction out as [|l out IH]; [reflexivity|].
  cbn [map concat length]. rewrite !count_app, IH.
  change (count NL [NL]) with 1. lia.
Qed.

Lemma entry_no_newline (content rule : str) :
  no_newline rule = true -> count NL (entry content rule) = 0.
Proof.
  intros H. apply no_newline_count in H. unfold entry.
  destruct (has content rule);
    unfold VerifySections.found_line, VerifySections.missing_line;
    rewrite !count_app, H; reflexivity.
Qed.

Lemma entries_no_newline (content : str) (rules : list str) :
  forallb no_newline rules = true ->
  count NL (concat (map (entry content) rules)) = 0.
Proof.
  induction rules as [|r rules IH]; intros H; [reflexivity|].
  cbn [forallb] in H. apply andb_true_iff in H. destruct H as [Hr H].
  cbn [map concat]. now rewrite count_app, entry_no_newline, IH.
Qed.

Lemma categories_newlines (content : str) (cats : list (str * list str)) :
  forallb (fun e =>
             Nat.eqb (count NL (VerifySections.category_line (fst e) (snd e)))
                     1
             && forallb no_newline (snd e)) cats = true ->
  count NL (concat (flat_map (category content) cats)) = length cats.
Proof.
  induction cats as [|[prefix rules] cats IH]; intros H; [reflexivity|].
  cbn [forallb fst snd] in H.
  apply andb_true_iff in H. destruct H as [He H].
  apply andb_true_iff in He. destruct He as [Hc Hr].
  apply Nat.eqb_eq in Hc.
  cbn [flat_map]. unfold category at 1. cbn [fst snd app].
  cbn [concat]. rewrite concat_app, !count_app, Hc.
  rewrite (entries_no_newline content rules Hr), (IH H).
  cbn [length]. lia.
Qed.

Lemma total_line_no_newline (n : nat) :
  count NL (VerifySections.total_line n) = 0.
Proof.
  unfold VerifySections.total_line. rewrite !count_app.
  rewrite (count_absent NL (str_of_nat n))
    by (apply str_of_nat_absent; reflexivity).
  reflexivity.
Qed.

(** X10.  Whatever the document, the catalog check reports every expected
    title once, in the order of the catalog, as found or as missing: the
    found and the missing entries together are 23 and the total counts
    the found ones.  The report is made by 34 calls of print; eight of
    the printed strings begin with a newline, so it is 42 lines of
    text. *)
Theorem every_title_reported (content : str) :
  let r := VerifySections.run content [] in
  filter (fun l => startswith found_mark l || startswith missing_mark l)
    (VerifySections.out r)
  = map (entry content) all_titles
  /\ length (found_entries (VerifySections.out r))
     + length (missing_entries (VerifySections.out r)) = 23
  /\ VerifySections.total_rules r
     = length (found_entries (VerifySections.out r))
  /\ length (VerifySections.out r) = 34
  /\ text_lines (VerifySections.out r) = 42.
Proof.
  cbv zeta.
  destruct (run_report content) as (Hmiss & Hfound & Htot & _).
  cbv zeta in Hmiss, Hfound, Htot.
  assert (Hlen : length (VerifySections.out (VerifySections.run content []))
                 = 34).
  { rewrite run_lines. cbn [VerifySections.out]. rewrite app_nil_l.
    rewrite !length_app, categories_length. reflexivity. }
  split; [|split; [|split; [|split]]].
  - rewrite run_lines. cbn [VerifySections.out]. rewrite app_nil_l.
    rewrite !filter_app, categories_entries. fold all_titles.
    cbn [filter].
    rewrite ?(proj1 (total_line_marks _)), ?(proj2 (total_line_marks _)).
    change (startswith found_mark
              (lit "Verifying all rules are present in AGENTS.md:"))
      with false.
    change (startswith missing_mark
              (lit "Verifying all rules are present in AGENTS.md:"))
      with false.
    change (startswith found_mark (times 61%N 60)) with false.
    change (startswith missing_mark (times 61%N 60)) with false.
    change (startswith found_mark (NL :: times 61%N 60)) with false.
    change (startswith missing_mark (NL :: times 61%N 60)) with false.
    cbn [orb]. cbv iota. rewrite app_nil_l, app_nil_r. reflexivity.
  - rewrite Hmiss, Hfound, !length_map.
    apply (filter_split_length (has content) all_titles).
  - rewrite Htot, Hfound, length_map. reflexivity.
  - exact Hlen.
  - rewrite render_lines, Hlen.
    rewrite run_lines. cbn [VerifySections.out]. rewrite app_nil_l.
    rewrite !concat_app, !count_app.
    rewrite categories_newlines by reflexivity.
    cbn [concat]. rewrite !count_app, total_line_no_newline.
    reflexivity.
Qed.
